(** * Dual-layer rectangle matching: a shallow embedding of [rectangle_detection.py]

    The development follows the scoring half of [RectangleDetector]:
    the containment test, the exclusion of reference rectangles that hold
    only point markers, the area fractions Z1 and Z2, and the two accuracy
    layers.  Image segmentation (OpenCV) and reporting are outside of it:
    the scoring methods start from the lists of dictionaries the detection
    methods return, and the detection methods are followed from the point
    where OpenCV has produced the contours, taking each contour's bounding
    box, moments and area as given.

    Conventions of the embedding.
    - Python [int] is [Z]; Python [float] is modelled by exact rationals [Q],
      compared with [==] ([Qeq]).  Rounding is therefore not modelled.
    - A dictionary with a fixed set of keys is a record.
    - A Python exception is a value of [exn]; every method returns a
      [result], so that "the method returns" is a theorem and not an
      assumption.
    - [self.detection_results] is threaded explicitly: a method takes [self]
      and returns its value together with the updated [self].
    - Output guarded by [self.debug_mode] only prints and logs; it is left out. *)

From Stdlib Require Import ZArith QArith Qabs Qminmax.
From Stdlib Require Import List String Bool Lia Lqa DecimalString DecimalNat.
From Stdlib Require Import Permutation.
Import ListNotations.

Local Open Scope Z_scope.

(** ** Python primitives used by the program *)

Inductive exn : Type :=
| IndexError
| ZeroDivisionError.

(** The outcome of a call: a value, or a raised exception. *)
Inductive result (A : Type) : Type :=
| Ok (a : A)
| Raise (e : exn).
Arguments Ok {A} a.
Arguments Raise {A} e.

Definition bind {A B : Type} (m : result A) (k : A -> result B) : result B :=
  match m with
  | Ok a => k a
  | Raise e => Raise e
  end.

Notation "x <- m ;; k" := (bind m (fun x => k))
  (at level 100, m at next level, right associativity).
Notation "' p <- m ;; k" := (bind m (fun p => k))
  (at level 100, p pattern, m at next level, right associativity).

Module Py.

(** [a < b] on floats. *)
Definition Qltb (a b : Q) : bool := negb (Qle_bool b a).

(** [max(a, b)]: the first argument is kept unless the second is
    strictly greater. *)
Definition max (a b : Q) : Q := if Qltb a b then b else a.

(** [abs(a)]. *)
Definition abs (a : Q) : Q := Qabs a.

(** [a / b], true division: raises on a zero divisor. *)
Definition truediv (a b : Q) : result Q :=
  if Qeq_bool b 0 then Raise ZeroDivisionError else Ok (a / b)%Q.

(** [int(q)]: truncation toward zero. *)
Definition int (q : Q) : Z := Z.quot (Qnum q) (Zpos (Qden q)).

(** [sum(l)] over integers: left to right, starting from 0. *)
Definition sum (l : list Z) : Z := fold_left Z.add l 0.

(** [l[i]] for an index produced by [range]: raises when out of range. *)
Definition getitem {A : Type} (l : list A) (i : nat) : result A :=
  match nth_error l i with
  | Some a => Ok a
  | None => Raise IndexError
  end.

(** [for a in l: s = body(s, a)], stopping at the first exception. *)
Fixpoint for_each {A S : Type} (body : S -> A -> result S)
         (l : list A) (s : S) : result S :=
  match l with
  | [] => Ok s
  | a :: l' =>
      match body s a with
      | Ok s' => for_each body l' s'
      | Raise e => Raise e
      end
  end.

(** [for a in l: if c(a): flag = True; break], from [flag = False]. *)
Fixpoint for_break {A : Type} (c : A -> bool) (l : list A) : bool :=
  match l with
  | [] => false
  | a :: l' => if c a then true else for_break c l'
  end.

End Py.

(** ** Data model *)

(** The dictionary built for a red or brown rectangle. *)
Module Rect.
Record t : Type := Build {
  id : string;
  x : Z;
  y : Z;
  width : Z;
  height : Z;
  area : Z;
  center : Z * Z
}.
End Rect.

(** The dictionary built for a cyan point. *)
Module Point.
Record t : Type := Build {
  id : string;
  x : Z;
  y : Z;
  area : Q
}.
End Point.

(** [self.detection_results]; the key [matching_statistics] belongs to the
    reporting code and is not modelled. *)
Record DetectionResults : Type := {
  red_rectangles : list Rect.t;
  brown_rectangles : list Rect.t;
  cyan_points : list Point.t;
  z1_values : list Q;
  z2_values : list Q;
  first_layer_accuracy : list Q;
  second_layer_accuracy : Q;
  excluded_red_rectangles : list Rect.t
}.

Record RectangleDetector : Type := {
  debug_mode : bool;
  detection_results : DetectionResults
}.

(** [RectangleDetector.__init__]. *)
Definition init (debug : bool) : RectangleDetector :=
  {| debug_mode := debug;
     detection_results :=
       {| red_rectangles := [];
          brown_rectangles := [];
          cyan_points := [];
          z1_values := [];
          z2_values := [];
          first_layer_accuracy := [];
          second_layer_accuracy := 0%Q;
          excluded_red_rectangles := [] |} |}.

(** Assignments [self.detection_results[key] = v]. *)
Definition set_z_values (self : RectangleDetector) (z1 z2 : list Q)
  : RectangleDetector :=
  let d := detection_results self in
  {| debug_mode := debug_mode self;
     detection_results :=
       {| red_rectangles := red_rectangles d;
          brown_rectangles := brown_rectangles d;
          cyan_points := cyan_points d;
          z1_values := z1;
          z2_values := z2;
          first_layer_accuracy := first_layer_accuracy d;
          second_layer_accuracy := second_layer_accuracy d;
          excluded_red_rectangles := excluded_red_rectangles d |} |}.

Definition set_first_layer_accuracy (self : RectangleDetector) (v : list Q)
  : RectangleDetector :=
  let d := detection_results self in
  {| debug_mode := debug_mode self;
     detection_results :=
       {| red_rectangles := red_rectangles d;
          brown_rectangles := brown_rectangles d;
          cyan_points := cyan_points d;
          z1_values := z1_values d;
          z2_values := z2_values d;
          first_layer_accuracy := v;
          second_layer_accuracy := second_layer_accuracy d;
          excluded_red_rectangles := excluded_red_rectangles d |} |}.

Definition set_second_layer_accuracy (self : RectangleDetector) (v : Q)
  : RectangleDetector :=
  let d := detection_results self in
  {| debug_mode := debug_mode self;
     detection_results :=
       {| red_rectangles := red_rectangles d;
          brown_rectangles := brown_rectangles d;
          cyan_points := cyan_points d;
          z1_values := z1_values d;
          z2_values := z2_values d;
          first_layer_accuracy := first_layer_accuracy d;
          second_layer_accuracy := v;
          excluded_red_rectangles := excluded_red_rectangles d |} |}.

Definition set_excluded_red_rectangles (self : RectangleDetector)
           (v : list Rect.t) : RectangleDetector :=
  let d := detection_results self in
  {| debug_mode := debug_mode self;
     detection_results :=
       {| red_rectangles := red_rectangles d;
          brown_rectangles := brown_rectangles d;
          cyan_points := cyan_points d;
          z1_values := z1_values d;
          z2_values := z2_values d;
          first_layer_accuracy := first_layer_accuracy d;
          second_layer_accuracy := second_layer_accuracy d;
          excluded_red_rectangles := v |} |}.

(** ** The dictionaries the detection methods build *)

(** [rect_info] of [detect_red_rectangles] and of
    [detect_brown_rectangles_and_cyan_points], for the bounding box
    [(x, y, w, h)] of contour number [i]; [prefix] is ["red_"] or ["brown_"].
    [w/2] is a true division by the literal 2: it cannot raise. *)
Definition rect_info (prefix : string) (i : nat) (x y w h : Z) : Rect.t :=
  let area := w * h in
  {| Rect.id := prefix ++ NilZero.string_of_uint (Nat.to_uint i);
     Rect.x := x;
     Rect.y := y;
     Rect.width := w;
     Rect.height := h;
     Rect.area := area;
     Rect.center := (Py.int (inject_Z x + inject_Z w / 2)%Q,
                     Py.int (inject_Z y + inject_Z h / 2)%Q) |}.

(** [point_info] of [detect_brown_rectangles_and_cyan_points]. *)
Definition point_info (i : nat) (cx cy : Z) (area : Q) : Point.t :=
  {| Point.id := "cyan_" ++ NilZero.string_of_uint (Nat.to_uint i);
     Point.x := cx;
     Point.y := cy;
     Point.area := area |}.

(** ** Methods of [RectangleDetector] *)

(** [_is_inside_rectangle]. *)
Definition _is_inside_rectangle (point : Z * Z) (rectangle : Rect.t) : bool :=
  let '(x, y) := point in
  ((Rect.x rectangle <=? x) && (x <=? Rect.x rectangle + Rect.width rectangle))
  && ((Rect.y rectangle <=? y)
      && (y <=? Rect.y rectangle + Rect.height rectangle)).

(** The body of the loop of [exclude_cyan_only_red_rectangles], on the pair
    [(filtered_red_rectangles, excluded_rectangles)]. *)
Definition exclude_step (brown_rectangles : list Rect.t)
           (cyan_points : list Point.t)
           (acc : list Rect.t * list Rect.t) (red_rect : Rect.t)
  : list Rect.t * list Rect.t :=
  let '(filtered_red_rectangles, excluded_rectangles) := acc in
  let has_brown_rectangle :=
    Py.for_break
      (fun brown_rect => _is_inside_rectangle (Rect.center brown_rect) red_rect)
      brown_rectangles in
  let has_cyan_point :=
    Py.for_break
      (fun cyan_point =>
         _is_inside_rectangle (Point.x cyan_point, Point.y cyan_point) red_rect)
      cyan_points in
  if has_cyan_point && negb has_brown_rectangle
  then (filtered_red_rectangles, excluded_rectangles ++ [red_rect])
  else (filtered_red_rectangles ++ [red_rect], excluded_rectangles).

(** [exclude_cyan_only_red_rectangles]. *)
Definition exclude_cyan_only_red_rectangles (self : RectangleDetector)
           (red_rectangles brown_rectangles : list Rect.t)
           (cyan_points : list Point.t)
  : result (list Rect.t * RectangleDetector) :=
  let '(filtered_red_rectangles, excluded_rectangles) :=
    fold_left (exclude_step brown_rectangles cyan_points)
              red_rectangles ([], []) in
  Ok (filtered_red_rectangles,
      set_excluded_red_rectangles self excluded_rectangles).

(** [calculate_z_values]. *)
Definition calculate_z_values (self : RectangleDetector)
           (red_rectangles brown_rectangles : list Rect.t)
  : result ((list Q * list Q) * RectangleDetector) :=
  let total_red_area := Py.sum (map Rect.area red_rectangles) in
  z1_values <-
    Py.for_each
      (fun z1_values rect =>
         if 0 <? total_red_area then
           z1 <- Py.truediv (inject_Z (Rect.area rect))
                            (inject_Z total_red_area) ;;
           Ok (z1_values ++ [z1])
         else Ok z1_values)
      red_rectangles [] ;;
  let total_brown_area := Py.sum (map Rect.area brown_rectangles) in
  z2_values <-
    Py.for_each
      (fun z2_values rect =>
         if 0 <? total_brown_area then
           z2 <- Py.truediv (inject_Z (Rect.area rect))
                            (inject_Z total_brown_area) ;;
           Ok (z2_values ++ [z2])
         else Ok z2_values)
      brown_rectangles [] ;;
  Ok ((z1_values, z2_values), set_z_values self z1_values z2_values).

(** The body of the loop of [calculate_first_layer_accuracy]. *)
Definition first_layer_step (z1_values z2_values : list Q)
           (first_layer_accuracies : list Q) (i : nat) : result (list Q) :=
  z1 <- Py.getitem z1_values i ;;
  z2 <- Py.getitem z2_values i ;;
  if Py.Qltb 0 (Py.max z1 z2) then
    q <- Py.truediv (Py.abs (z1 - z2)) (Py.max z1 z2) ;;
    let accuracy := (1 - q)%Q in
    Ok (first_layer_accuracies ++ [accuracy])
  else Ok (first_layer_accuracies ++ [0%Q]).

(** [calculate_first_layer_accuracy]. *)
Definition calculate_first_layer_accuracy (self : RectangleDetector)
           (z1_values z2_values : list Q)
  : result (list Q * RectangleDetector) :=
  let min_len := Nat.min (List.length z1_values) (List.length z2_values) in
  first_layer_accuracies <-
    Py.for_each (first_layer_step z1_values z2_values) (seq 0 min_len) [] ;;
  Ok (first_layer_accuracies,
      set_first_layer_accuracy self first_layer_accuracies).

(** The two inner loops of [calculate_second_layer_accuracy]: the pair
    [(matches_in_red, total_targets_in_red)] for one red rectangle. *)
Definition count_targets (red_rect : Rect.t) (brown_rectangles : list Rect.t)
           (cyan_points : list Point.t) : Z * Z :=
  let '(matches_in_red, total_targets_in_red) :=
    fold_left
      (fun '(m, t) brown_rect =>
         if _is_inside_rectangle (Rect.center brown_rect) red_rect
         then (m + 1, t + 1) else (m, t))
      brown_rectangles (0, 0) in
  let total_targets_in_red :=
    fold_left
      (fun t cyan_point =>
         if _is_inside_rectangle (Point.x cyan_point, Point.y cyan_point)
                                 red_rect
         then t + 1 else t)
      cyan_points total_targets_in_red in
  (matches_in_red, total_targets_in_red).

(** The body of the outer loop, on the pair [(sum_ratios, valid_matches)]. *)
Definition second_layer_step (brown_rectangles : list Rect.t)
           (cyan_points : list Point.t)
           (acc : Q * Z) (red_rect : Rect.t) : result (Q * Z) :=
  let '(sum_ratios, valid_matches) := acc in
  let '(matches_in_red, total_targets_in_red) :=
    count_targets red_rect brown_rectangles cyan_points in
  if 0 <? total_targets_in_red then
    ratio <- Py.truediv (inject_Z matches_in_red)
                        (inject_Z total_targets_in_red) ;;
    Ok ((sum_ratios + ratio)%Q, valid_matches + 1)
  else Ok (sum_ratios, valid_matches).

(** [calculate_second_layer_accuracy].  The early return for an empty list
    leaves [self.detection_results] as it is. *)
Definition calculate_second_layer_accuracy (self : RectangleDetector)
           (red_rectangles brown_rectangles : list Rect.t)
           (cyan_points : list Point.t)
  : result (Q * RectangleDetector) :=
  match red_rectangles with
  | [] => Ok (0%Q, self)
  | _ :: _ =>
      '(sum_ratios, valid_matches) <-
        Py.for_each (second_layer_step brown_rectangles cyan_points)
                    red_rectangles (0%Q, 0) ;;
      second_layer_accuracy <-
        (if 0 <? valid_matches
         then Py.truediv sum_ratios (inject_Z valid_matches)
         else Ok 0%Q) ;;
      Ok (second_layer_accuracy,
          set_second_layer_accuracy self second_layer_accuracy)
  end.

(** What [process_images] computes from the detected lists. *)
Record Scores : Type := {
  filtered_reference : list Rect.t;
  z1 : list Q;
  z2 : list Q;
  first_layer_scores : list Q;
  second_layer_score : Q
}.

(** [process_images], from the call of [exclude_cyan_only_red_rectangles]
    to the call of [calculate_second_layer_accuracy]; the three lists are
    the results of the two detection calls that precede them. *)
Definition process_images (self : RectangleDetector)
           (red_rectangles brown_rectangles : list Rect.t)
           (cyan_points : list Point.t)
  : result (Scores * RectangleDetector) :=
  '(filtered_red_rectangles, self) <-
    exclude_cyan_only_red_rectangles self red_rectangles brown_rectangles
                                     cyan_points ;;
  '((z1_values, z2_values), self) <-
    calculate_z_values self filtered_red_rectangles brown_rectangles ;;
  '(first_layer_accuracies, self) <-
    calculate_first_layer_accuracy self z1_values z2_values ;;
  '(second_layer_accuracy, self) <-
    calculate_second_layer_accuracy self filtered_red_rectangles
                                    brown_rectangles cyan_points ;;
  Ok ({| filtered_reference := filtered_red_rectangles;
         z1 := z1_values;
         z2 := z2_values;
         first_layer_scores := first_layer_accuracies;
         second_layer_score := second_layer_accuracy |}, self).

(** ** Decisions and values the methods compute, named for the proofs *)

(** The test at the end of the loop body of
    [exclude_cyan_only_red_rectangles]. *)
Definition cyan_only (browns : list Rect.t) (cyans : list Point.t)
           (r : Rect.t) : bool :=
  Py.for_break (fun c => _is_inside_rectangle (Point.x c, Point.y c) r) cyans
  && negb (Py.for_break
             (fun b => _is_inside_rectangle (Rect.center b) r) browns).

(** The value appended for one index by [calculate_first_layer_accuracy]. *)
Definition pair_accuracy (z1 z2 : Q) : Q :=
  if Py.Qltb 0 (Py.max z1 z2)
  then (1 - Py.abs (z1 - z2) / Py.max z1 z2)%Q
  else 0%Q.

(** The test and the ratio of the loop body of
    [calculate_second_layer_accuracy]. *)
Definition has_targets (browns : list Rect.t) (cyans : list Point.t)
           (r : Rect.t) : bool :=
  0 <? snd (count_targets r browns cyans).

Definition ratio_of (browns : list Rect.t) (cyans : list Point.t)
           (r : Rect.t) : Q :=
  (inject_Z (fst (count_targets r browns cyans))
   / inject_Z (snd (count_targets r browns cyans)))%Q.

(** The value [calculate_second_layer_accuracy] returns. *)
Definition second_layer_value (reds browns : list Rect.t)
           (cyans : list Point.t) : Q :=
  let scored := filter (has_targets browns cyans) reds in
  let valid_matches := Z.of_nat (List.length scored) in
  if 0 <? valid_matches
  then (fold_left Qplus (map (ratio_of browns cyans) scored) 0
        / inject_Z valid_matches)%Q
  else 0%Q.

(** ** Vocabulary of the design document *)

(** Closed-box containment: both coordinates lie between the rectangle's
    origin and origin plus extent, bounds included. *)
Definition contains (r : Rect.t) (p : Z * Z) : Prop :=
  (Rect.x r <= fst p <= Rect.x r + Rect.width r)
  /\ (Rect.y r <= snd p <= Rect.y r + Rect.height r).

Definition contains_dec (r : Rect.t) (p : Z * Z)
  : {contains r p} + {~ contains r p}.
Proof.
  unfold contains.
  destruct (Z_le_dec (Rect.x r) (fst p));
    destruct (Z_le_dec (fst p) (Rect.x r + Rect.width r));
    destruct (Z_le_dec (Rect.y r) (snd p));
    destruct (Z_le_dec (snd p) (Rect.y r + Rect.height r));
    solve [left; tauto | right; tauto].
Defined.

(** Some candidate point lies in [r]. *)
Definition has_candidate_point (cyans : list Point.t) (r : Rect.t) : Prop :=
  exists p, In p cyans /\ contains r (Point.x p, Point.y p).

(** The center of some candidate rectangle lies in [r]. *)
Definition has_candidate_rect (browns : list Rect.t) (r : Rect.t) : Prop :=
  exists b, In b browns /\ contains r (Rect.center b).

(** [l] is [l1] and [l2] shuffled together: every position of [l] is taken
    from exactly one of them, in their order. *)
Inductive interleaving {A : Type} : list A -> list A -> list A -> Prop :=
| interleaving_nil : interleaving [] [] []
| interleaving_left a l1 l2 l :
    interleaving l1 l2 l -> interleaving (a :: l1) l2 (a :: l)
| interleaving_right a l1 l2 l :
    interleaving l1 l2 l -> interleaving l1 (a :: l2) (a :: l).

(** [s] is an order-preserving subsequence of [l]. *)
Inductive subseq {A : Type} : list A -> list A -> Prop :=
| subseq_nil : subseq [] []
| subseq_take a s l : subseq s l -> subseq (a :: s) (a :: l)
| subseq_skip a s l : subseq s l -> subseq s (a :: l).

(** The sum of a sequence of fractions. *)
Definition Qsum (l : list Q) : Q := fold_right Qplus 0%Q l.

(** [total_ref_area]: the sum of the areas of a list of rectangles. *)
Definition total_area (l : list Rect.t) : Z :=
  fold_right (fun r s => Rect.area r + s) 0 l.

(** [matches_i]: how many candidate rectangles have their center in [r]. *)
Definition matches (browns : list Rect.t) (r : Rect.t) : Z :=
  Z.of_nat
    (List.length
       (filter (fun b => if contains_dec r (Rect.center b) then true else false)
               browns)).

(** [targets_i]: [matches_i] plus how many candidate points lie in [r]. *)
Definition targets (browns : list Rect.t) (cyans : list Point.t)
           (r : Rect.t) : Z :=
  matches browns r
  + Z.of_nat
      (List.length
         (filter (fun p => if contains_dec r (Point.x p, Point.y p)
                           then true else false)
                 cyans)).

(** The reference rectangles with [targets_i > 0], in order. *)
Definition scored (browns : list Rect.t) (cyans : list Point.t)
           (reds : list Rect.t) : list Rect.t :=
  filter (fun r => 0 <? targets browns cyans r) reds.

(** [ratio_i = matches_i / targets_i]. *)
Definition ratio (browns : list Rect.t) (cyans : list Point.t)
           (r : Rect.t) : Q :=
  (inject_Z (matches browns r) / inject_Z (targets browns cyans r))%Q.

(** ** End-to-end scenario C of the design document *)

(** Two reference rectangles, one candidate rectangle inside the first and
    one candidate point inside the second, as the detection methods would
    build their dictionaries. *)
Definition scenario_c_rect_1 : Rect.t := rect_info "red_" 0 0 0 100 100.
Definition scenario_c_rect_2 : Rect.t := rect_info "red_" 1 200 0 100 100.
Definition scenario_c_reference : list Rect.t :=
  [scenario_c_rect_1; scenario_c_rect_2].
Definition scenario_c_candidate_rects : list Rect.t :=
  [rect_info "brown_" 0 10 10 40 40].
Definition scenario_c_candidate_points : list Point.t :=
  [point_info 0 250 50 5%Q].

(** ** The detection methods, after the calls into OpenCV *)

(** [enumerate(l)]. *)
Definition enumerate {A : Type} (l : list A) : list (nat * A) :=
  combine (seq 0 (List.length l)) l.

(** What [cv2.moments] and [cv2.contourArea] give for one cyan contour. *)
Record Contour : Type := {
  m00 : Q;
  m10 : Q;
  m01 : Q;
  contourArea : Q
}.

(** [self.detection_results["red_rectangles"].extend(v)]. *)
Definition extend_red_rectangles (self : RectangleDetector)
           (v : list Rect.t) : RectangleDetector :=
  let d := detection_results self in
  {| debug_mode := debug_mode self;
     detection_results :=
       {| red_rectangles := red_rectangles d ++ v;
          brown_rectangles := brown_rectangles d;
          cyan_points := cyan_points d;
          z1_values := z1_values d;
          z2_values := z2_values d;
          first_layer_accuracy := first_layer_accuracy d;
          second_layer_accuracy := second_layer_accuracy d;
          excluded_red_rectangles := excluded_red_rectangles d |} |}.

(** The two [extend] calls that end
    [detect_brown_rectangles_and_cyan_points]. *)
Definition extend_brown_and_cyan (self : RectangleDetector)
           (browns : list Rect.t) (cyans : list Point.t)
  : RectangleDetector :=
  let d := detection_results self in
  {| debug_mode := debug_mode self;
     detection_results :=
       {| red_rectangles := red_rectangles d;
          brown_rectangles := brown_rectangles d ++ browns;
          cyan_points := cyan_points d ++ cyans;
          z1_values := z1_values d;
          z2_values := z2_values d;
          first_layer_accuracy := first_layer_accuracy d;
          second_layer_accuracy := second_layer_accuracy d;
          excluded_red_rectangles := excluded_red_rectangles d |} |}.

(** The loop over the contours that [detect_red_rectangles] and
    [detect_brown_rectangles_and_cyan_points] share but for the prefix of
    the identifier and the area threshold; [boxes] holds
    [cv2.boundingRect(contour)] for each contour, in order. *)
Definition rectangles_above (prefix : string) (threshold : Z)
           (boxes : list (Z * Z * Z * Z)) : list Rect.t :=
  fold_left
    (fun rectangles '(i, (x, y, w, h)) =>
       let area := w * h in
       if threshold <? area
       then rectangles ++ [rect_info prefix i x y w h]
       else rectangles)
    (enumerate boxes) [].

(** [detect_red_rectangles], from the loop over the contours on. *)
Definition detect_red_rectangles (self : RectangleDetector)
           (boxes : list (Z * Z * Z * Z))
  : result (list Rect.t * RectangleDetector) :=
  let red_rectangles := rectangles_above "red_" 500 boxes in
  Ok (red_rectangles, extend_red_rectangles self red_rectangles).

(** The body of the loop over the cyan contours. *)
Definition cyan_step (cyan_points : list Point.t) (ic : nat * Contour)
  : result (list Point.t) :=
  let '(i, M) := ic in
  if negb (Qeq_bool (m00 M) 0) then
    qx <- Py.truediv (m10 M) (m00 M) ;;
    let cx := Py.int qx in
    qy <- Py.truediv (m01 M) (m00 M) ;;
    let cy := Py.int qy in
    let area := contourArea M in
    if Py.Qltb 10 area
    then Ok (cyan_points ++ [point_info i cx cy area])
    else Ok cyan_points
  else Ok cyan_points.

(** [detect_brown_rectangles_and_cyan_points], from the loops over the
    contours on. *)
Definition detect_brown_rectangles_and_cyan_points
           (self : RectangleDetector)
           (brown_boxes : list (Z * Z * Z * Z)) (cyan_contours : list Contour)
  : result ((list Rect.t * list Point.t) * RectangleDetector) :=
  let brown_rectangles := rectangles_above "brown_" 300 brown_boxes in
  cyan_points <- Py.for_each cyan_step (enumerate cyan_contours) [] ;;
  Ok ((brown_rectangles, cyan_points),
      extend_brown_and_cyan self brown_rectangles cyan_points).

(** ** Matching statistics *)

(** [np.mean(l)] on a list of floats; [None] stands for numpy's [nan] on
    the empty list. *)
Definition np_mean (l : list Q) : option Q :=
  match l with
  | [] => None
  | _ :: _ =>
      Some (fold_left Qplus l 0 / inject_Z (Z.of_nat (List.length l)))%Q
  end.

(** [np.mean(l) if l else 0.0]. *)
Definition mean_or_zero (l : list Q) : option Q :=
  match l with
  | [] => Some 0%Q
  | _ :: _ => np_mean l
  end.

(** The dictionary [statistics] of [generate_matching_statistics]; a mean is
    an [option], [None] standing for [nan]. *)
Record Statistics : Type := {
  red_rectangles_count : Z;
  brown_rectangles_count : Z;
  cyan_points_count : Z;
  excluded_red_rectangles_count : Z;
  first_layer_accuracies : list Q;
  first_layer_avg_accuracy : option Q;
  stat_second_layer_accuracy : Q;
  stat_z1_values : list Q;
  stat_z2_values : list Q;
  z1_avg : option Q;
  z2_avg : option Q;
  processing_timestamp : string
}.

(** [generate_matching_statistics]: the dictionary it assigns to
    [self.detection_results["matching_statistics"]]; [now] is
    [datetime.datetime.now().isoformat()]. *)
Definition generate_matching_statistics (self : RectangleDetector)
           (red_rectangles brown_rectangles : list Rect.t)
           (cyan_points : list Point.t) (now : string) : Statistics :=
  let d := detection_results self in
  {| red_rectangles_count := Z.of_nat (List.length red_rectangles);
     brown_rectangles_count := Z.of_nat (List.length brown_rectangles);
     cyan_points_count := Z.of_nat (List.length cyan_points);
     excluded_red_rectangles_count :=
       Z.of_nat (List.length (excluded_red_rectangles d));
     first_layer_accuracies := first_layer_accuracy d;
     first_layer_avg_accuracy := mean_or_zero (first_layer_accuracy d);
     stat_second_layer_accuracy := second_layer_accuracy d;
     stat_z1_values := z1_values d;
     stat_z2_values := z2_values d;
     z1_avg := mean_or_zero (z1_values d);
     z2_avg := mean_or_zero (z2_values d);
     processing_timestamp := now |}.

(** [process_images] from the first detection call to
    [generate_matching_statistics]: the contour data stand for the two
    images once loaded and segmented. *)
Definition process_contours (self : RectangleDetector)
           (red_boxes brown_boxes : list (Z * Z * Z * Z))
           (cyan_contours : list Contour) (now : string)
  : result ((Scores * Statistics) * RectangleDetector) :=
  '(red_rectangles, self) <- detect_red_rectangles self red_boxes ;;
  '((brown_rectangles, cyan_points), self) <-
    detect_brown_rectangles_and_cyan_points self brown_boxes cyan_contours ;;
  '(scores, self) <-
    process_images self red_rectangles brown_rectangles cyan_points ;;
  let statistics :=
    generate_matching_statistics self (filtered_reference scores)
                                 brown_rectangles cyan_points now in
  Ok ((scores, statistics), self).

(** ** The values [process_images] passes from one call to the next *)

(** The area fractions [calculate_z_values] computes for one list. *)
Definition fractions (l : list Rect.t) : list Q :=
  if 0 <? total_area l
  then map (fun r => (inject_Z (Rect.area r) / inject_Z (total_area l))%Q) l
  else [].

(** The list [exclude_cyan_only_red_rectangles] returns, and the list it
    stores as excluded. *)
Definition kept (browns : list Rect.t) (cyans : list Point.t)
           (reds : list Rect.t) : list Rect.t :=
  filter (fun r => negb (cyan_only browns cyans r)) reds.

Definition dropped (browns : list Rect.t) (cyans : list Point.t)
           (reds : list Rect.t) : list Rect.t :=
  filter (cyan_only browns cyans) reds.

(** The list [calculate_first_layer_accuracy] returns. *)
Definition first_scores (z1s z2s : list Q) : list Q :=
  map (fun p => pair_accuracy (fst p) (snd p)) (combine z1s z2s).

(** What [process_images] returns, and the detector it leaves behind. *)
Definition scores_of (reds browns : list Rect.t) (cyans : list Point.t)
  : Scores :=
  {| filtered_reference := kept browns cyans reds;
     z1 := fractions (kept browns cyans reds);
     z2 := fractions browns;
     first_layer_scores :=
       first_scores (fractions (kept browns cyans reds)) (fractions browns);
     second_layer_score :=
       second_layer_value (kept browns cyans reds) browns cyans |}.

Definition self_after (self : RectangleDetector) (reds browns : list Rect.t)
           (cyans : list Point.t) : RectangleDetector :=
  let scores := scores_of reds browns cyans in
  let self3 :=
    set_first_layer_accuracy
      (set_z_values
         (set_excluded_red_rectangles self (dropped browns cyans reds))
         (z1 scores) (z2 scores))
      (first_layer_scores scores) in
  match filtered_reference scores with
  | [] => self3
  | _ :: _ => set_second_layer_accuracy self3 (second_layer_score scores)
  end.

(** The points the loop over the cyan contours collects. *)
Definition cyan_kept (ic : nat * Contour) : bool :=
  negb (Qeq_bool (m00 (snd ic)) 0) && Py.Qltb 10 (contourArea (snd ic)).

Definition cyan_point_of (ic : nat * Contour) : Point.t :=
  point_info (fst ic)
             (Py.int (m10 (snd ic) / m00 (snd ic))%Q)
             (Py.int (m01 (snd ic) / m00 (snd ic))%Q)
             (contourArea (snd ic)).

Definition cyan_points_of (contours : list Contour) : list Point.t :=
  map cyan_point_of (filter cyan_kept (enumerate contours)).

(** All four components of a bounding box are non-negative, as for a box
    inside an image. *)
Definition box_in_image (box : Z * Z * Z * Z) : Prop :=
  let '(x, y, w, h) := box in 0 <= x /\ 0 <= y /\ 0 <= w /\ 0 <= h.

(** ** Facts about the Python primitives *)

Section PyFacts.

Lemma Qltb_lt (a b : Q) : Py.Qltb a b = true <-> (a < b)%Q.
Proof.
  unfold Py.Qltb. rewrite negb_true_iff.
  split; intro H.
  - apply Qnot_le_lt. intro Hle. apply Qle_bool_iff in Hle. congruence.
  - destruct (Qle_bool b a) eqn:E; [|reflexivity].
    apply Qle_bool_iff in E. exfalso. exact (Qlt_not_le _ _ H E).
Qed.

Lemma Qltb_ge (a b : Q) : Py.Qltb a b = false <-> (b <= a)%Q.
Proof.
  unfold Py.Qltb. rewrite negb_false_iff. apply Qle_bool_iff.
Qed.

Lemma max_is_Qmax (a b : Q) : (Py.max a b == Qmax a b)%Q.
Proof.
  unfold Py.max. destruct (Py.Qltb a b) eqn:E.
  - apply Qltb_lt in E. symmetry. apply Q.max_r. apply Qlt_le_weak, E.
  - apply Qltb_ge in E. symmetry. apply Q.max_l, E.
Qed.

Lemma truediv_ok (a b : Q) : ~ (b == 0)%Q -> Py.truediv a b = Ok (a / b)%Q.
Proof.
  intro Hb. unfold Py.truediv.
  destruct (Qeq_bool b 0) eqn:E; [|reflexivity].
  apply Qeq_bool_iff in E. contradiction.
Qed.

Lemma inject_Z_nonzero (z : Z) : z <> 0 -> ~ (inject_Z z == 0)%Q.
Proof.
  intros H E. apply H. unfold Qeq in E. simpl in E. lia.
Qed.

Lemma truediv_pos (a b : Z) :
  0 < b -> Py.truediv (inject_Z a) (inject_Z b) = Ok (inject_Z a / inject_Z b)%Q.
Proof.
  intro Hb. apply truediv_ok, inject_Z_nonzero. lia.
Qed.

Lemma for_break_exists {A : Type} (c : A -> bool) (l : list A) :
  Py.for_break c l = true <-> exists a, In a l /\ c a = true.
Proof.
  induction l as [|a l IH]; simpl.
  - split; [discriminate | intros [a [[] _]]].
  - destruct (c a) eqn:E.
    + split; [intros _; exists a; auto | reflexivity].
    + rewrite IH. split.
      * intros [a' [Hin Hc]]. exists a'. auto.
      * intros [a' [[->|Hin] Hc]]; [congruence | exists a'; auto].
Qed.

(** A loop that appends [f a] to its accumulator for the elements that pass
    the test [c], and never raises on the elements of [l]. *)
Lemma for_each_append {A B : Type} (body : list B -> A -> result (list B))
      (c : A -> bool) (f : A -> B) (l : list A) :
  (forall acc a, In a l ->
                 body acc a = Ok (if c a then acc ++ [f a] else acc)) ->
  forall acc, Py.for_each body l acc = Ok (acc ++ map f (filter c l)).
Proof.
  induction l as [|a l IH]; intros Hbody acc; simpl.
  - now rewrite app_nil_r.
  - rewrite Hbody by (left; reflexivity).
    rewrite IH by (intros; apply Hbody; right; assumption).
    destruct (c a); simpl; [rewrite <- app_assoc|]; reflexivity.
Qed.

Lemma sum_from (l : list Z) (a : Z) :
  fold_left Z.add l a = a + fold_right Z.add 0 l.
Proof.
  revert a. induction l as [|b l IH]; intro a; simpl; [lia|].
  rewrite IH. lia.
Qed.

Lemma sum_areas (l : list Rect.t) : Py.sum (map Rect.area l) = total_area l.
Proof.
  unfold Py.sum. rewrite sum_from. simpl.
  induction l as [|r l IH]; simpl; [reflexivity|]. now rewrite IH.
Qed.

End PyFacts.

(** ** Containment *)

Lemma _is_inside_rectangle_contains (p : Z * Z) (r : Rect.t) :
  _is_inside_rectangle p r = true <-> contains r p.
Proof.
  destruct p as [px py]. unfold _is_inside_rectangle, contains. simpl.
  rewrite !andb_true_iff, !Z.leb_le. tauto.
Qed.

Lemma _is_inside_rectangle_dec (p : Z * Z) (r : Rect.t) :
  _is_inside_rectangle p r = if contains_dec r p then true else false.
Proof.
  destruct (contains_dec r p) as [H|H].
  - now apply _is_inside_rectangle_contains.
  - apply not_true_is_false. intro E. apply H.
    now apply _is_inside_rectangle_contains.
Qed.

(** ** The exclusion step *)

Lemma exclude_step_eq browns cyans f e r :
  exclude_step browns cyans (f, e) r =
  if cyan_only browns cyans r then (f, e ++ [r]) else (f ++ [r], e).
Proof. reflexivity. Qed.

Lemma cyan_only_spec browns cyans r :
  cyan_only browns cyans r = true <->
  has_candidate_point cyans r /\ ~ has_candidate_rect browns r.
Proof.
  unfold cyan_only, has_candidate_point, has_candidate_rect.
  rewrite andb_true_iff, negb_true_iff, <- not_true_iff_false.
  rewrite !for_break_exists.
  split; intros [[p [Hin Hp]] Hn];
    (split; [exists p | intros [b [Hb Hc]]; apply Hn; exists b]);
    split; auto; apply _is_inside_rectangle_contains; assumption.
Qed.

Lemma exclude_loop browns cyans reds :
  forall f e,
    fold_left (exclude_step browns cyans) reds (f, e) =
    (f ++ filter (fun r => negb (cyan_only browns cyans r)) reds,
     e ++ filter (cyan_only browns cyans) reds).
Proof.
  induction reds as [|r reds IH]; intros f e; cbn [fold_left filter].
  - now rewrite !app_nil_r.
  - rewrite exclude_step_eq.
    destruct (cyan_only browns cyans r); cbn [negb];
      rewrite IH, <- app_assoc; reflexivity.
Qed.

Lemma exclude_run self reds browns cyans :
  exclude_cyan_only_red_rectangles self reds browns cyans =
  Ok (filter (fun r => negb (cyan_only browns cyans r)) reds,
      set_excluded_red_rectangles self (filter (cyan_only browns cyans) reds)).
Proof.
  unfold exclude_cyan_only_red_rectangles. rewrite exclude_loop. reflexivity.
Qed.

Lemma interleaving_filter {A : Type} (c : A -> bool) (l : list A) :
  interleaving (filter (fun a => negb (c a)) l) (filter c l) l.
Proof.
  induction l as [|a l IH]; simpl; [constructor|].
  destruct (c a); simpl; constructor; assumption.
Qed.

Lemma interleaving_subseq {A : Type} (l1 l2 l : list A) :
  interleaving l1 l2 l -> subseq l1 l /\ subseq l2 l.
Proof.
  induction 1 as [|a l1 l2 l _ [IH1 IH2]|a l1 l2 l _ [IH1 IH2]];
    split; constructor; assumption.
Qed.

Lemma interleaving_length {A : Type} (l1 l2 l : list A) :
  interleaving l1 l2 l ->
  (List.length l1 + List.length l2 = List.length l)%nat.
Proof.
  induction 1; simpl; lia.
Qed.

(** C1.  [exclude_cyan_only_red_rectangles] always returns.  A reference
    rectangle of the input ends up in the excluded list exactly when some
    candidate point lies in it (bounds included) and no candidate
    rectangle's center does; every other reference rectangle ends up in the
    returned, filtered list, in particular one that holds no candidate
    marker at all. *)
Theorem exclusion_rule :
  forall self reds browns cyans,
  exists filtered self',
    exclude_cyan_only_red_rectangles self reds browns cyans
    = Ok (filtered, self')
    /\ forall r,
        In r reds ->
        (In r (excluded_red_rectangles (detection_results self')) <->
         has_candidate_point cyans r /\ ~ has_candidate_rect browns r)
        /\ (In r filtered <->
            ~ (has_candidate_point cyans r /\ ~ has_candidate_rect browns r))
        /\ (~ has_candidate_point cyans r ->
            ~ has_candidate_rect browns r -> In r filtered).
Proof.
  intros self reds browns cyans.
  eexists. eexists. split; [apply exclude_run|].
  intros r Hr. cbn [set_excluded_red_rectangles detection_results
                    excluded_red_rectangles].
  rewrite !filter_In, negb_true_iff, <- not_true_iff_false, cyan_only_spec.
  repeat split; try tauto.
Qed.

(** C4.  [exclude_cyan_only_red_rectangles] splits the reference sequence
    exactly: the filtered and the excluded lists are the input shuffled
    apart (each position of the input goes to exactly one of them, order
    kept), both are order-preserving subsequences of the input, no rectangle
    occurs in both, every input rectangle occurs in exactly one, and their
    lengths add up to the length of the input. *)
Theorem exclusion_partitions_reference :
  forall self reds browns cyans,
  exists filtered excluded self',
    exclude_cyan_only_red_rectangles self reds browns cyans
    = Ok (filtered, self')
    /\ excluded_red_rectangles (detection_results self') = excluded
    /\ interleaving filtered excluded reds
    /\ subseq filtered reds
    /\ subseq excluded reds
    /\ (forall r, ~ (In r filtered /\ In r excluded))
    /\ (forall r, In r reds ->
                  (In r filtered /\ ~ In r excluded)
                  \/ (In r excluded /\ ~ In r filtered))
    /\ (List.length filtered + List.length excluded = List.length reds)%nat.
Proof.
  intros self reds browns cyans.
  pose proof (interleaving_filter (cyan_only browns cyans) reds) as Hi.
  eexists. eexists. eexists.
  split; [apply exclude_run|].
  split; [cbn [set_excluded_red_rectangles detection_results
               excluded_red_rectangles]; reflexivity|].
  split; [exact Hi|].
  split; [exact (proj1 (interleaving_subseq _ _ _ Hi))|].
  split; [exact (proj2 (interleaving_subseq _ _ _ Hi))|].
  split; [|split; [|exact (interleaving_length _ _ _ Hi)]].
  - intros r [Hf He]. apply filter_In in Hf, He.
    destruct Hf as [_ Hf], He as [_ He]. rewrite He in Hf. discriminate.
  - intros r Hr. rewrite !filter_In.
    destruct (cyan_only browns cyans r); cbn [negb];
      [right | left];
      (split; [split; [assumption | reflexivity]
              | intros [_ H]; discriminate H]).
Qed.

(** ** Area fractions *)

Lemma filter_const {A : Type} (b : bool) (l : list A) :
  filter (fun _ => b) l = if b then l else [].
Proof.
  induction l as [|a l IH]; simpl; [now destruct b|].
  rewrite IH. now destruct b.
Qed.

(** Either loop of [calculate_z_values], for the total [t] of its list. *)
Lemma z_loop_run (t : Z) (l : list Rect.t) :
  Py.for_each
    (fun zs rect =>
       if 0 <? t then
         z <- Py.truediv (inject_Z (Rect.area rect)) (inject_Z t) ;;
         Ok (zs ++ [z])
       else Ok zs)
    l []
  = Ok (if 0 <? t
        then map (fun r => (inject_Z (Rect.area r) / inject_Z t)%Q) l
        else []).
Proof.
  rewrite (for_each_append _ (fun _ => 0 <? t)
             (fun r => (inject_Z (Rect.area r) / inject_Z t)%Q)).
  - rewrite filter_const. simpl. now destruct (0 <? t).
  - intros acc r _. destruct (0 <? t) eqn:E; [|reflexivity].
    apply Z.ltb_lt in E. now rewrite truediv_pos.
Qed.

Lemma calculate_z_values_run self reds browns :
  calculate_z_values self reds browns =
  Ok ((if 0 <? total_area reds
       then map (fun r => (inject_Z (Rect.area r)
                           / inject_Z (total_area reds))%Q) reds
       else [],
       if 0 <? total_area browns
       then map (fun r => (inject_Z (Rect.area r)
                           / inject_Z (total_area browns))%Q) browns
       else []),
      set_z_values self
        (if 0 <? total_area reds
         then map (fun r => (inject_Z (Rect.area r)
                             / inject_Z (total_area reds))%Q) reds
         else [])
        (if 0 <? total_area browns
         then map (fun r => (inject_Z (Rect.area r)
                             / inject_Z (total_area browns))%Q) browns
         else [])).
Proof.
  unfold calculate_z_values. cbv zeta.
  rewrite !z_loop_run, !sum_areas. reflexivity.
Qed.

Lemma Qsum_fractions (t : Q) (l : list Rect.t) :
  (Qsum (map (fun r => inject_Z (Rect.area r) / t) l)
   == inject_Z (total_area l) / t)%Q.
Proof.
  induction l as [|r l IH]; simpl.
  - unfold Qdiv. ring.
  - rewrite IH, inject_Z_plus. unfold Qdiv. ring.
Qed.

Lemma total_area_zero (l : list Rect.t) :
  (forall r, In r l -> Rect.area r = 0) -> total_area l = 0.
Proof.
  induction l as [|r l IH]; intro H; simpl; [reflexivity|].
  rewrite (H r) by (left; reflexivity).
  rewrite IH; [reflexivity|]. intros r' Hr'. apply H. now right.
Qed.

(** C6.  [calculate_z_values] always returns.  With exact rational
    arithmetic, when the filtered list is non-empty and its total area is
    positive the Z1 sequence sums to exactly 1; the Z1 sequence is empty
    when the filtered list is empty, when all its areas are zero, and more
    generally when its total area is 0. *)
Theorem z1_sums_to_one :
  forall self filtered browns,
  exists z1v z2v self',
    calculate_z_values self filtered browns = Ok ((z1v, z2v), self')
    /\ z1_values (detection_results self') = z1v
    /\ (filtered <> [] -> 0 < total_area filtered -> (Qsum z1v == 1)%Q)
    /\ (filtered = [] -> z1v = [])
    /\ ((forall r, In r filtered -> Rect.area r = 0) -> z1v = [])
    /\ (total_area filtered = 0 -> z1v = []).
Proof.
  intros self filtered browns.
  eexists. eexists. eexists.
  split; [apply calculate_z_values_run|].
  split; [reflexivity|].
  assert (Hzero : total_area filtered = 0 ->
                  (if 0 <? total_area filtered
                   then map (fun r => (inject_Z (Rect.area r)
                                       / inject_Z (total_area filtered))%Q)
                            filtered
                   else []) = []).
  { intros ->. reflexivity. }
  repeat split.
  - intros _ Hpos. apply Z.ltb_lt in Hpos as Hb. rewrite Hb.
    rewrite Qsum_fractions. apply Qmult_inv_r, inject_Z_nonzero. lia.
  - intros ->. reflexivity.
  - intro H. apply Hzero, total_area_zero, H.
  - exact Hzero.
Qed.

(** The area fractions on a concrete list: areas 2 and 6 give 1/4 and 3/4. *)
Lemma z1_sums_to_one_witness :
  exists z1v z2v self',
    calculate_z_values (init false)
      [rect_info "red_" 0 0 0 1 2; rect_info "red_" 1 5 5 2 3] []
    = Ok ((z1v, z2v), self')
    /\ (Qsum z1v == 1)%Q.
Proof.
  destruct (z1_sums_to_one (init false)
              [rect_info "red_" 0 0 0 1 2; rect_info "red_" 1 5 5 2 3] [])
    as (z1v & z2v & self' & Hrun & _ & Hsum & _).
  exists z1v, z2v, self'. split; [exact Hrun|].
  apply Hsum; [discriminate | reflexivity].
Defined.

(** ** First layer *)

Lemma getitem_nth (l : list Q) (i : nat) :
  (i < List.length l)%nat -> Py.getitem l i = Ok (nth i l 0%Q).
Proof.
  intro H. unfold Py.getitem. now rewrite (nth_error_nth' l 0%Q H).
Qed.

Lemma first_layer_step_ok (z1s z2s acc : list Q) (i : nat) :
  (i < List.length z1s)%nat -> (i < List.length z2s)%nat ->
  first_layer_step z1s z2s acc i =
  Ok (acc ++ [pair_accuracy (nth i z1s 0%Q) (nth i z2s 0%Q)]).
Proof.
  intros H1 H2. unfold first_layer_step, pair_accuracy.
  rewrite (getitem_nth _ _ H1), (getitem_nth _ _ H2). cbn [bind].
  destruct (Py.Qltb 0 (Py.max (nth i z1s 0%Q) (nth i z2s 0%Q))) eqn:E;
    [|reflexivity].
  apply Qltb_lt in E. rewrite truediv_ok; [reflexivity|].
  intro H0. rewrite H0 in E. exact (Qlt_irrefl 0 E).
Qed.

Lemma map_nth_combine {B : Type} (g : Q -> Q -> B) (l1 l2 : list Q) :
  map (fun i => g (nth i l1 0%Q) (nth i l2 0%Q))
      (seq 0 (Nat.min (List.length l1) (List.length l2)))
  = map (fun p => g (fst p) (snd p)) (combine l1 l2).
Proof.
  revert l2. induction l1 as [|a l1 IH]; intros [|b l2]; try reflexivity.
  cbn [List.length Nat.min seq map combine nth fst snd]. f_equal.
  rewrite <- seq_shift, map_map. cbn [nth]. apply IH.
Qed.

Lemma calculate_first_layer_accuracy_run self z1s z2s :
  calculate_first_layer_accuracy self z1s z2s =
  Ok (map (fun p => pair_accuracy (fst p) (snd p)) (combine z1s z2s),
      set_first_layer_accuracy self
        (map (fun p => pair_accuracy (fst p) (snd p)) (combine z1s z2s))).
Proof.
  unfold calculate_first_layer_accuracy.
  rewrite (for_each_append _ (fun _ => true)
             (fun i => pair_accuracy (nth i z1s 0%Q) (nth i z2s 0%Q))).
  - rewrite filter_const. cbn [app bind]. now rewrite map_nth_combine.
  - intros acc i Hi. apply in_seq in Hi.
    apply first_layer_step_ok; lia.
Qed.

Lemma nth_error_combine {A B : Type} (l1 : list A) (l2 : list B) :
  forall i a b,
    nth_error l1 i = Some a -> nth_error l2 i = Some b ->
    nth_error (combine l1 l2) i = Some (a, b).
Proof.
  revert l2. induction l1 as [|x l1 IH]; intros [|y l2] [|i] a b H1 H2;
    simpl in *; try discriminate.
  - congruence.
  - now apply IH.
Qed.

Lemma combine_prefixes {A B : Type} (l1 : list A) (l2 : list B) :
  combine (firstn (Nat.min (List.length l1) (List.length l2)) l1)
          (firstn (Nat.min (List.length l1) (List.length l2)) l2)
  = combine l1 l2.
Proof.
  revert l2. induction l1 as [|x l1 IH]; intros [|y l2]; try reflexivity.
  cbn [List.length Nat.min firstn combine]. f_equal. apply IH.
Qed.

Lemma pair_accuracy_formula (a b : Q) :
  ((0 < Qmax a b)%Q ->
   (pair_accuracy a b == 1 - Qabs (a - b) / Qmax a b)%Q)
  /\ (~ (0 < Qmax a b)%Q -> pair_accuracy a b = 0%Q).
Proof.
  unfold pair_accuracy, Py.abs. split; intro H.
  - rewrite <- max_is_Qmax in H. apply Qltb_lt in H as Hb. rewrite Hb.
    now rewrite max_is_Qmax.
  - destruct (Py.Qltb 0 (Py.max a b)) eqn:E; [|reflexivity].
    apply Qltb_lt in E. rewrite max_is_Qmax in E. contradiction.
Qed.

(** C2.  [calculate_first_layer_accuracy] always returns a list of exactly
    [min(len(Z1), len(Z2))] scores.  The score at a paired index [i] is
    [1 - |Z1_i - Z2_i| / max(Z1_i, Z2_i)] when that maximum is positive and
    [0] otherwise.  The entries beyond the shorter length play no part: the
    same scores come from the two sequences cut to that length. *)
Theorem first_layer_pairs_by_index :
  forall self z1s z2s,
  exists scores self',
    calculate_first_layer_accuracy self z1s z2s = Ok (scores, self')
    /\ List.length scores = Nat.min (List.length z1s) (List.length z2s)
    /\ (forall i a b,
          nth_error z1s i = Some a -> nth_error z2s i = Some b ->
          exists p,
            nth_error scores i = Some p
            /\ ((0 < Qmax a b)%Q -> (p == 1 - Qabs (a - b) / Qmax a b)%Q)
            /\ (~ (0 < Qmax a b)%Q -> p = 0%Q))
    /\ (exists self'',
          calculate_first_layer_accuracy self
            (firstn (Nat.min (List.length z1s) (List.length z2s)) z1s)
            (firstn (Nat.min (List.length z1s) (List.length z2s)) z2s)
          = Ok (scores, self'')).
Proof.
  intros self z1s z2s.
  eexists. eexists.
  split; [apply calculate_first_layer_accuracy_run|].
  split; [now rewrite length_map, length_combine|].
  split.
  - intros i a b Ha Hb. exists (pair_accuracy a b).
    split; [|apply pair_accuracy_formula].
    rewrite nth_error_map, (nth_error_combine _ _ _ _ _ Ha Hb). reflexivity.
  - eexists. rewrite calculate_first_layer_accuracy_run, combine_prefixes.
    reflexivity.
Qed.

(** C5 as stated fails on a pair of zeros: the guard [max(z1, z2) > 0] is
    false there and the score appended is [0.0], not [1.0]. *)
Lemma equal_zero_pair_scores_zero :
  exists scores self',
    calculate_first_layer_accuracy (init false) [0%Q] [0%Q]
    = Ok (scores, self')
    /\ nth_error scores 0 = Some 0%Q
    /\ ~ (0 == 1)%Q.
Proof.
  eexists. eexists. split; [reflexivity|]. split; [reflexivity|].
  discriminate.
Qed.

(** C5, amended.  At a paired index where [Z1_i == Z2_i], the score is
    [1] when the common value is positive, and [0] when it is zero or
    negative (the guard on the maximum fails). *)
Theorem equal_pair_score :
  forall self z1s z2s i a b,
    nth_error z1s i = Some a ->
    nth_error z2s i = Some b ->
    (a == b)%Q ->
    exists scores self' p,
      calculate_first_layer_accuracy self z1s z2s = Ok (scores, self')
      /\ nth_error scores i = Some p
      /\ ((0 < a)%Q -> (p == 1)%Q)
      /\ ((a <= 0)%Q -> p = 0%Q).
Proof.
  intros self z1s z2s i a b Ha Hb Hab.
  eexists. eexists. exists (pair_accuracy a b).
  split; [apply calculate_first_layer_accuracy_run|].
  split.
  { rewrite nth_error_map, (nth_error_combine _ _ _ _ _ Ha Hb). reflexivity. }
  assert (Hmax : (Qmax a b == a)%Q).
  { apply Q.max_l. rewrite Hab. apply Qle_refl. }
  destruct (pair_accuracy_formula a b) as [Hpos Hneg].
  split; intro H.
  - rewrite Hpos by (rewrite Hmax; exact H).
    rewrite Hmax, Hab.
    setoid_replace (b - b)%Q with 0%Q by ring.
    simpl Qabs. unfold Qdiv. ring.
  - apply Hneg. rewrite Hmax. apply Qle_not_lt, H.
Qed.

(** Two equal positive fractions, written differently, score 1. *)
Lemma equal_pair_score_witness :
  exists scores self' p,
    calculate_first_layer_accuracy (init false) [1 # 2]%Q [2 # 4]%Q
    = Ok (scores, self')
    /\ nth_error scores 0 = Some p
    /\ (p == 1)%Q.
Proof.
  destruct (equal_pair_score (init false) [1 # 2]%Q [2 # 4]%Q 0%nat
              (1 # 2)%Q (2 # 4)%Q eq_refl eq_refl eq_refl)
    as (scores & self' & p & Hrun & Hp & Hone & _).
  exists scores, self', p. split; [exact Hrun|]. split; [exact Hp|].
  apply Hone. reflexivity.
Defined.

(** ** Second layer *)

Lemma count_browns (f : Rect.t -> bool) (l : list Rect.t) :
  forall m t,
    fold_left (fun '(m, t) b => if f b then (m + 1, t + 1) else (m, t))
              l (m, t)
    = (m + Z.of_nat (List.length (filter f l)),
       t + Z.of_nat (List.length (filter f l))).
Proof.
  induction l as [|b l IH]; intros m t; cbn [fold_left filter].
  - cbn [List.length]. f_equal; lia.
  - destruct (f b); rewrite IH; [|reflexivity].
    cbn [List.length]. f_equal; lia.
Qed.

Lemma count_cyans (g : Point.t -> bool) (l : list Point.t) :
  forall t,
    fold_left (fun t c => if g c then t + 1 else t) l t
    = t + Z.of_nat (List.length (filter g l)).
Proof.
  induction l as [|c l IH]; intro t; cbn [fold_left filter].
  - cbn [List.length]. lia.
  - destruct (g c); rewrite IH; [|reflexivity].
    cbn [List.length]. lia.
Qed.

Lemma count_targets_spec r browns cyans :
  count_targets r browns cyans = (matches browns r, targets browns cyans r).
Proof.
  unfold count_targets, targets, matches.
  rewrite count_browns, count_cyans.
  rewrite (filter_ext _ (fun b => if contains_dec r (Rect.center b)
                                  then true else false))
    by (intro b; apply _is_inside_rectangle_dec).
  rewrite (filter_ext (fun c => _is_inside_rectangle (Point.x c, Point.y c) r)
                      (fun p => if contains_dec r (Point.x p, Point.y p)
                                then true else false))
    by (intro c; apply _is_inside_rectangle_dec).
  reflexivity.
Qed.

Lemma has_targets_spec browns cyans r :
  has_targets browns cyans r = (0 <? targets browns cyans r).
Proof. unfold has_targets. now rewrite count_targets_spec. Qed.

Lemma ratio_of_spec browns cyans r :
  ratio_of browns cyans r = ratio browns cyans r.
Proof. unfold ratio_of, ratio. now rewrite count_targets_spec. Qed.

Lemma second_layer_step_eq browns cyans s v r :
  second_layer_step browns cyans (s, v) r =
  Ok (if has_targets browns cyans r
      then ((s + ratio_of browns cyans r)%Q, v + 1)
      else (s, v)).
Proof.
  unfold second_layer_step, has_targets, ratio_of.
  destruct (count_targets r browns cyans) as [m t]. cbn [fst snd].
  destruct (0 <? t) eqn:E; [|reflexivity].
  apply Z.ltb_lt in E. now rewrite truediv_pos.
Qed.

Lemma second_layer_loop browns cyans reds :
  forall s v,
    Py.for_each (second_layer_step browns cyans) reds (s, v) =
    Ok (fold_left Qplus
                  (map (ratio_of browns cyans)
                       (filter (has_targets browns cyans) reds)) s,
        v + Z.of_nat (List.length (filter (has_targets browns cyans) reds))).
Proof.
  induction reds as [|r reds IH]; intros s v; cbn [Py.for_each filter].
  - cbn [map fold_left List.length]. do 2 f_equal. lia.
  - rewrite second_layer_step_eq.
    destruct (has_targets browns cyans r); rewrite IH; [|reflexivity].
    cbn [map fold_left List.length]. do 2 f_equal. lia.
Qed.

Lemma calculate_second_layer_accuracy_run self reds browns cyans :
  calculate_second_layer_accuracy self reds browns cyans =
  Ok (second_layer_value reds browns cyans,
      match reds with
      | [] => self
      | _ :: _ =>
          set_second_layer_accuracy self
            (second_layer_value reds browns cyans)
      end).
Proof.
  destruct reds as [|r reds]; [reflexivity|].
  unfold calculate_second_layer_accuracy, second_layer_value.
  rewrite second_layer_loop. cbn [bind]. rewrite Z.add_0_l.
  destruct (0 <? Z.of_nat
                   (List.length
                      (filter (has_targets browns cyans) (r :: reds)))) eqn:E;
    [|reflexivity].
  apply Z.ltb_lt in E. rewrite truediv_ok; [reflexivity|].
  apply inject_Z_nonzero. lia.
Qed.

Lemma fold_Qplus (l : list Q) :
  forall s, (fold_left Qplus l s == s + Qsum l)%Q.
Proof.
  induction l as [|q l IH]; intro s; simpl.
  - ring.
  - rewrite IH. ring.
Qed.

Lemma scored_spec browns cyans reds :
  filter (has_targets browns cyans) reds = scored browns cyans reds.
Proof.
  apply filter_ext. intro r. apply has_targets_spec.
Qed.

Lemma second_layer_value_spec reds browns cyans :
  second_layer_value reds browns cyans =
  if 0 <? Z.of_nat (List.length (scored browns cyans reds))
  then (fold_left Qplus (map (ratio browns cyans) (scored browns cyans reds)) 0
        / inject_Z (Z.of_nat (List.length (scored browns cyans reds))))%Q
  else 0%Q.
Proof.
  unfold second_layer_value. cbv zeta. rewrite scored_spec.
  rewrite (map_ext _ _ (ratio_of_spec browns cyans)). reflexivity.
Qed.

(** C3.  [calculate_second_layer_accuracy] always returns.  With
    [matches_i] the number of candidate rectangles whose center lies in the
    reference rectangle [r_i], and [targets_i] that number plus the number
    of candidate points in [r_i], the score is the sum of
    [matches_i / targets_i] over the rectangles with [targets_i > 0],
    divided by how many such rectangles there are; the rectangles with
    [targets_i = 0] enter neither the sum nor the count; the score is [0]
    when no rectangle has a target and when the list is empty. *)
Theorem second_layer_is_mean_of_ratios :
  forall self reds browns cyans,
  exists score self',
    calculate_second_layer_accuracy self reds browns cyans
    = Ok (score, self')
    /\ (forall r, In r (scored browns cyans reds) <->
                  In r reds /\ 0 < targets browns cyans r)
    /\ (scored browns cyans reds <> [] ->
        (score == Qsum (map (ratio browns cyans) (scored browns cyans reds))
                  / inject_Z (Z.of_nat
                                (List.length (scored browns cyans reds))))%Q)
    /\ (scored browns cyans reds = [] -> score = 0%Q)
    /\ (reds = [] -> score = 0%Q).
Proof.
  intros self reds browns cyans.
  eexists. eexists.
  split; [apply calculate_second_layer_accuracy_run|].
  rewrite second_layer_value_spec.
  split; [|split; [|split]].
  - intro r. unfold scored. rewrite filter_In, Z.ltb_lt. reflexivity.
  - intro Hne.
    destruct (scored browns cyans reds) as [|r0 sc] eqn:E; [congruence|].
    replace (0 <? Z.of_nat (List.length (r0 :: sc))) with true
      by (symmetry; apply Z.ltb_lt; cbn [List.length]; lia).
    rewrite fold_Qplus. rewrite Qplus_0_l. reflexivity.
  - intros ->. reflexivity.
  - intros ->. reflexivity.
Qed.

Lemma ratio_of_bounds browns cyans r :
  has_targets browns cyans r = true ->
  (0 <= ratio_of browns cyans r <= 1)%Q.
Proof.
  rewrite has_targets_spec, ratio_of_spec, Z.ltb_lt. intro Hpos.
  assert (Hm : 0 <= matches browns r) by (unfold matches; lia).
  assert (Ht : matches browns r <= targets browns cyans r)
    by (unfold targets; lia).
  assert (HposQ : (0 < inject_Z (targets browns cyans r))%Q)
    by (change 0%Q with (inject_Z 0); rewrite <- Zlt_Qlt; exact Hpos).
  unfold ratio. split.
  - apply Qle_shift_div_l; [exact HposQ|].
    rewrite Qmult_0_l. change 0%Q with (inject_Z 0).
    rewrite <- Zle_Qle. exact Hm.
  - apply Qle_shift_div_r; [exact HposQ|].
    rewrite Qmult_1_l, <- Zle_Qle. exact Ht.
Qed.

Lemma fold_Qplus_bounds (l : list Q) :
  (forall q, In q l -> (0 <= q <= 1)%Q) ->
  forall s,
    (s <= fold_left Qplus l s)%Q
    /\ (fold_left Qplus l s <= s + inject_Z (Z.of_nat (List.length l)))%Q.
Proof.
  induction l as [|q l IH]; intros Hl s.
  - cbn [fold_left List.length]. change (inject_Z (Z.of_nat 0)) with 0%Q.
    split; lra.
  - cbn [fold_left].
    destruct (IH (fun q' Hq' => Hl q' (or_intror Hq')) (s + q)%Q) as [Hlo Hhi].
    destruct (Hl q (or_introl eq_refl)) as [Hq0 Hq1].
    replace (Z.of_nat (List.length (q :: l)))
      with (Z.of_nat (List.length l) + 1) by (cbn [List.length]; lia).
    rewrite inject_Z_plus. change (inject_Z 1) with 1%Q.
    split; lra.
Qed.

Lemma second_layer_value_bounds reds browns cyans :
  (0 <= second_layer_value reds browns cyans <= 1)%Q.
Proof.
  unfold second_layer_value. cbv zeta.
  set (sc := filter (has_targets browns cyans) reds).
  destruct (0 <? Z.of_nat (List.length sc)) eqn:E; [|split; lra].
  apply Z.ltb_lt in E.
  assert (Hn : (0 < inject_Z (Z.of_nat (List.length sc)))%Q)
    by (change 0%Q with (inject_Z 0); rewrite <- Zlt_Qlt; exact E).
  destruct (fold_Qplus_bounds (map (ratio_of browns cyans) sc)) with (s := 0%Q)
    as [Hlo Hhi].
  { intros q Hq. apply in_map_iff in Hq. destruct Hq as [r [<- Hr]].
    apply ratio_of_bounds. unfold sc in Hr. apply filter_In in Hr. tauto. }
  rewrite length_map in Hhi.
  split.
  - apply Qle_shift_div_l; [exact Hn|]. lra.
  - apply Qle_shift_div_r; [exact Hn|]. lra.
Qed.

(** C7.  For arbitrary reference, candidate rectangle and candidate point
    lists, [calculate_second_layer_accuracy] returns a score between 0 and
    1, bounds included, and it returns [0] for an empty reference list. *)
Theorem second_layer_in_unit_interval :
  forall self reds browns cyans,
  exists score self',
    calculate_second_layer_accuracy self reds browns cyans
    = Ok (score, self')
    /\ (0 <= score <= 1)%Q
    /\ (reds = [] -> score = 0%Q).
Proof.
  intros self reds browns cyans.
  eexists. eexists.
  split; [apply calculate_second_layer_accuracy_run|].
  split; [apply second_layer_value_bounds|].
  intros ->. reflexivity.
Qed.

Lemma filter_skip {A : Type} (c : A -> bool) (l1 l2 : list A) (a : A) :
  c a = false -> filter c (l1 ++ a :: l2) = filter c (l1 ++ l2).
Proof.
  intro H. rewrite !filter_app. cbn [filter]. now rewrite H.
Qed.

(** C10.  [calculate_first_layer_accuracy] returns exactly
    [min(len(Z1), len(Z2))] scores: a pair whose maximum is 0 still gets an
    entry, of value [0].  The second layer differs: a reference rectangle
    with no target is skipped, and the score is the same as without it. *)
Theorem first_layer_keeps_degenerate_pairs :
  (forall self z1s z2s,
    exists scores self',
      calculate_first_layer_accuracy self z1s z2s = Ok (scores, self')
      /\ List.length scores = Nat.min (List.length z1s) (List.length z2s)
      /\ (forall i a b,
            nth_error z1s i = Some a -> nth_error z2s i = Some b ->
            (Qmax a b == 0)%Q -> nth_error scores i = Some 0%Q))
  /\ (forall self reds1 r reds2 browns cyans,
        targets browns cyans r = 0 ->
        exists score self1 self2,
          calculate_second_layer_accuracy self (reds1 ++ r :: reds2)
                                          browns cyans
          = Ok (score, self1)
          /\ calculate_second_layer_accuracy self (reds1 ++ reds2)
                                             browns cyans
             = Ok (score, self2)).
Proof.
  split.
  - intros self z1s z2s. eexists. eexists.
    split; [apply calculate_first_layer_accuracy_run|].
    split; [now rewrite length_map, length_combine|].
    intros i a b Ha Hb Hmax.
    rewrite nth_error_map, (nth_error_combine _ _ _ _ _ Ha Hb).
    cbn [option_map fst snd]. f_equal.
    apply pair_accuracy_formula. rewrite Hmax. apply Qlt_irrefl.
  - intros self reds1 r reds2 browns cyans Hr.
    eexists. eexists. eexists.
    split; [apply calculate_second_layer_accuracy_run|].
    rewrite calculate_second_layer_accuracy_run. do 2 f_equal.
    unfold second_layer_value.
    rewrite filter_skip; [reflexivity|].
    rewrite has_targets_spec, Hr. reflexivity.
Qed.

(** ** The center of a detected rectangle *)

Lemma int_half (a w : Z) :
  0 <= a -> 0 <= w -> Py.int (inject_Z a + inject_Z w / 2)%Q = a + w / 2.
Proof.
  intros Ha Hw. unfold Py.int. cbn.
  rewrite Z.quot_div_nonneg by lia.
  replace (a * 2 + w * 1 * 1) with (w + a * 2) by ring.
  rewrite Z.div_add by lia. ring.
Qed.

(** C8.  For a bounding box with non-negative [x], [y], [width] and
    [height], the center stored by the detection methods,
    [(int(x + w/2), int(y + h/2))], is [(x + w // 2, y + h // 2)] with floor
    division, and the rectangle contains its own center. *)
Theorem center_is_self_contained :
  forall prefix i x y w h,
    0 <= x -> 0 <= y -> 0 <= w -> 0 <= h ->
    Rect.center (rect_info prefix i x y w h) = (x + w / 2, y + h / 2)
    /\ _is_inside_rectangle (Rect.center (rect_info prefix i x y w h))
                            (rect_info prefix i x y w h) = true
    /\ contains (rect_info prefix i x y w h)
                (Rect.center (rect_info prefix i x y w h)).
Proof.
  intros prefix i x y w h Hx Hy Hw Hh.
  assert (Hc : Rect.center (rect_info prefix i x y w h)
               = (x + w / 2, y + h / 2)).
  { unfold rect_info. cbn [Rect.center]. now rewrite !int_half. }
  assert (Hin : contains (rect_info prefix i x y w h)
                         (Rect.center (rect_info prefix i x y w h))).
  { rewrite Hc. unfold contains, rect_info.
    cbn [fst snd Rect.x Rect.y Rect.width Rect.height].
    assert (0 <= w / 2 <= w)
      by (split; [apply Z.div_pos | apply Z.div_le_upper_bound]; lia).
    assert (0 <= h / 2 <= h)
      by (split; [apply Z.div_pos | apply Z.div_le_upper_bound]; lia).
    lia. }
  split; [exact Hc|]. split; [|exact Hin].
  apply _is_inside_rectangle_contains, Hin.
Qed.

(** A box at (3, 5) of odd width 7 and height 9 has its center at (6, 9). *)
Lemma center_is_self_contained_witness :
  Rect.center (rect_info "red_" 0 3 5 7 9) = (6, 9)
  /\ _is_inside_rectangle (Rect.center (rect_info "red_" 0 3 5 7 9))
                          (rect_info "red_" 0 3 5 7 9) = true.
Proof.
  destruct (center_is_self_contained "red_" 0 3 5 7 9) as (Hc & Hin & _);
    try lia.
  split; [exact Hc | exact Hin].
Defined.

(** ** The composed pipeline *)

(** C9.  On scenario C, [process_images] keeps the first reference
    rectangle and excludes the second, and yields [Z1 = [1]], [Z2 = [1]],
    first-layer scores [[1]] and second-layer score [1]. *)
Theorem scenario_c_scores :
  forall self,
  exists scores self',
    process_images self scenario_c_reference scenario_c_candidate_rects
                   scenario_c_candidate_points
    = Ok (scores, self')
    /\ filtered_reference scores = [scenario_c_rect_1]
    /\ excluded_red_rectangles (detection_results self') = [scenario_c_rect_2]
    /\ Forall2 Qeq (z1 scores) [1%Q]
    /\ Forall2 Qeq (z2 scores) [1%Q]
    /\ Forall2 Qeq (first_layer_scores scores) [1%Q]
    /\ (second_layer_score scores == 1)%Q.
Proof.
  intro self. eexists. eexists.
  split; [reflexivity|].
  cbn [filtered_reference z1 z2 first_layer_scores second_layer_score].
  split; [reflexivity|]. split; [reflexivity|].
  repeat split; repeat constructor.
Qed.

(** ** Further properties of the first layer *)

Lemma Qabs_diff_le_max (a b : Q) :
  (0 <= a)%Q -> (0 <= b)%Q -> (Qabs (a - b) <= Qmax a b)%Q.
Proof.
  intros Ha Hb. apply Qabs_Qle_condition.
  pose proof (Q.le_max_l a b). pose proof (Q.le_max_r a b).
  split; lra.
Qed.

Lemma pair_accuracy_bounds (a b : Q) :
  (0 <= a)%Q -> (0 <= b)%Q -> (0 <= pair_accuracy a b <= 1)%Q.
Proof.
  intros Ha Hb.
  destruct (Qlt_le_dec 0 (Qmax a b)) as [Hpos|Hle].
  - rewrite (proj1 (pair_accuracy_formula a b) Hpos).
    pose proof (Qabs_diff_le_max a b Ha Hb) as Hup.
    pose proof (Qabs_nonneg (a - b)) as Hlo.
    assert (H1 : (Qabs (a - b) / Qmax a b <= 1)%Q)
      by (apply Qle_shift_div_r; [exact Hpos | lra]).
    assert (H0 : (0 <= Qabs (a - b) / Qmax a b)%Q)
      by (apply Qle_shift_div_l; [exact Hpos | lra]).
    split; lra.
  - rewrite (proj2 (pair_accuracy_formula a b) (Qle_not_lt _ _ Hle)).
    split; lra.
Qed.

(** X1.  On sequences of non-negative fractions every first-layer score
    lies between 0 and 1, bounds included. *)
Theorem first_layer_scores_in_unit_interval :
  forall self z1s z2s,
    (forall q, In q z1s -> (0 <= q)%Q) ->
    (forall q, In q z2s -> (0 <= q)%Q) ->
    exists scores self',
      calculate_first_layer_accuracy self z1s z2s = Ok (scores, self')
      /\ forall p, In p scores -> (0 <= p <= 1)%Q.
Proof.
  intros self z1s z2s H1 H2. eexists. eexists.
  split; [apply calculate_first_layer_accuracy_run|].
  intros p Hp. apply in_map_iff in Hp. destruct Hp as [[a b] [<- Hab]].
  apply pair_accuracy_bounds.
  - apply H1. exact (in_combine_l _ _ _ _ Hab).
  - apply H2. exact (in_combine_r _ _ _ _ Hab).
Qed.

(** Fractions 1/4, 3/4 against 1/2, 1/2: scores 1/2 and 2/3. *)
Lemma first_layer_scores_in_unit_interval_witness :
  exists scores self',
    calculate_first_layer_accuracy (init false) [1 # 4; 3 # 4]%Q
                                   [1 # 2; 1 # 2]%Q
    = Ok (scores, self')
    /\ forall p, In p scores -> (0 <= p <= 1)%Q.
Proof.
  apply (first_layer_scores_in_unit_interval (init false)
           [1 # 4; 3 # 4]%Q [1 # 2; 1 # 2]%Q).
  - intros q [<-|[<-|[]]]; discriminate.
  - intros q [<-|[<-|[]]]; discriminate.
Defined.

(** Without the sign condition the bound fails: 1 against -1 scores -1. *)
Lemma first_layer_score_of_negative_fraction :
  exists scores self',
    calculate_first_layer_accuracy (init false) [1%Q] [(-1)%Q]
    = Ok (scores, self')
    /\ Forall2 Qeq scores [(-1)%Q].
Proof.
  eexists. eexists. split; [reflexivity|]. repeat constructor.
Qed.

(** X2.  At a paired index where one fraction is zero and the other is
    positive, the first-layer score is 0. *)
Theorem zero_against_positive_scores_zero :
  forall self z1s z2s i a b,
    nth_error z1s i = Some a ->
    nth_error z2s i = Some b ->
    ((a == 0)%Q /\ (0 < b)%Q) \/ ((b == 0)%Q /\ (0 < a)%Q) ->
    exists scores self' p,
      calculate_first_layer_accuracy self z1s z2s = Ok (scores, self')
      /\ nth_error scores i = Some p
      /\ (p == 0)%Q.
Proof.
  intros self z1s z2s i a b Ha Hb Hcase.
  eexists. eexists. exists (pair_accuracy a b).
  split; [apply calculate_first_layer_accuracy_run|].
  split.
  { rewrite nth_error_map, (nth_error_combine _ _ _ _ _ Ha Hb). reflexivity. }
  destruct (pair_accuracy_formula a b) as [Hpos _].
  destruct Hcase as [[Hz Hp]|[Hz Hp]].
  - assert (Hmax : (Qmax a b == b)%Q)
      by (apply Q.max_r; rewrite Hz; apply Qlt_le_weak, Hp).
    rewrite Hpos by (rewrite Hmax; exact Hp).
    rewrite Hmax, Hz.
    setoid_replace (0 - b)%Q with (- b)%Q by ring.
    rewrite Qabs_opp, (Qabs_pos b) by (apply Qlt_le_weak, Hp).
    field. intro Hb0. rewrite Hb0 in Hp. exact (Qlt_irrefl 0 Hp).
  - assert (Hmax : (Qmax a b == a)%Q)
      by (apply Q.max_l; rewrite Hz; apply Qlt_le_weak, Hp).
    rewrite Hpos by (rewrite Hmax; exact Hp).
    rewrite Hmax, Hz.
    setoid_replace (a - 0)%Q with a by ring.
    rewrite (Qabs_pos a) by (apply Qlt_le_weak, Hp).
    field. intro Ha0. rewrite Ha0 in Hp. exact (Qlt_irrefl 0 Hp).
Qed.

Lemma zero_against_positive_scores_zero_witness :
  exists scores self' p,
    calculate_first_layer_accuracy (init false) [0%Q] [1 # 3]%Q
    = Ok (scores, self')
    /\ nth_error scores 0 = Some p
    /\ (p == 0)%Q.
Proof.
  apply (zero_against_positive_scores_zero (init false) [0%Q] [1 # 3]%Q
           0%nat 0%Q (1 # 3)%Q eq_refl eq_refl).
  left. split; reflexivity.
Defined.

Lemma pair_accuracy_sym (a b : Q) :
  (pair_accuracy a b == pair_accuracy b a)%Q.
Proof.
  destruct (pair_accuracy_formula a b) as [Hab Hab'].
  destruct (pair_accuracy_formula b a) as [Hba Hba'].
  destruct (Qlt_le_dec 0 (Qmax a b)) as [Hpos|Hle].
  - rewrite Hab by exact Hpos.
    rewrite Hba by (rewrite Q.max_comm; exact Hpos).
    rewrite (Q.max_comm b a), (Qabs_Qminus b a). reflexivity.
  - rewrite Hab' by (apply Qle_not_lt, Hle).
    rewrite Hba' by (rewrite Q.max_comm; apply Qle_not_lt, Hle).
    reflexivity.
Qed.

(** X3.  The first layer is symmetric: exchanging the two sequences gives
    the same scores, index by index. *)
Theorem first_layer_symmetric :
  forall self z1s z2s,
  exists scores scores' self1 self2,
    calculate_first_layer_accuracy self z1s z2s = Ok (scores, self1)
    /\ calculate_first_layer_accuracy self z2s z1s = Ok (scores', self2)
    /\ Forall2 Qeq scores scores'.
Proof.
  intros self z1s z2s. eexists. eexists. eexists. eexists.
  split; [apply calculate_first_layer_accuracy_run|].
  split; [apply calculate_first_layer_accuracy_run|].
  revert z2s. induction z1s as [|a z1s IH]; intros [|b z2s];
    cbn [combine map]; try constructor.
  - cbn [fst snd]. apply pair_accuracy_sym.
  - apply IH.
Qed.

(** ** Further properties of the area fractions *)

Lemma calculate_z_values_fractions self reds browns :
  calculate_z_values self reds browns =
  Ok ((fractions reds, fractions browns),
      set_z_values self (fractions reds) (fractions browns)).
Proof. apply calculate_z_values_run. Qed.

Lemma total_area_nonneg (l : list Rect.t) :
  (forall r, In r l -> 0 <= Rect.area r) -> 0 <= total_area l.
Proof.
  induction l as [|r l IH]; intro H; simpl; [lia|].
  pose proof (H r (or_introl eq_refl)).
  pose proof (IH (fun r' Hr' => H r' (or_intror Hr'))). lia.
Qed.

Lemma area_le_total (l : list Rect.t) :
  (forall r, In r l -> 0 <= Rect.area r) ->
  forall r, In r l -> Rect.area r <= total_area l.
Proof.
  induction l as [|r0 l IH]; intros H r Hr; [contradiction|].
  simpl. pose proof (H r0 (or_introl eq_refl)) as H0.
  pose proof (total_area_nonneg l (fun r' Hr' => H r' (or_intror Hr'))) as Ht.
  destruct Hr as [->|Hr]; [lia|].
  pose proof (IH (fun r' Hr' => H r' (or_intror Hr')) r Hr). lia.
Qed.

Lemma fractions_bounds (l : list Rect.t) :
  (forall r, In r l -> 0 <= Rect.area r) ->
  forall z, In z (fractions l) -> (0 <= z <= 1)%Q.
Proof.
  intros H z Hz. unfold fractions in Hz.
  destruct (0 <? total_area l) eqn:E; [|contradiction].
  apply Z.ltb_lt in E. apply in_map_iff in Hz. destruct Hz as [r [<- Hr]].
  assert (Hpos : (0 < inject_Z (total_area l))%Q)
    by (change 0%Q with (inject_Z 0); rewrite <- Zlt_Qlt; exact E).
  split.
  - apply Qle_shift_div_l; [exact Hpos|].
    rewrite Qmult_0_l. change 0%Q with (inject_Z 0).
    rewrite <- Zle_Qle. apply H, Hr.
  - apply Qle_shift_div_r; [exact Hpos|].
    rewrite Qmult_1_l, <- Zle_Qle. apply area_le_total; assumption.
Qed.

(** X4.  For rectangles of non-negative area, [calculate_z_values] gives
    one fraction per rectangle, in the order of the list, whenever the total
    area of the list is positive, and every fraction of Z1 and Z2 lies
    between 0 and 1. *)
Theorem z_values_are_fractions :
  forall self reds browns,
    (forall r, In r reds -> 0 <= Rect.area r) ->
    (forall r, In r browns -> 0 <= Rect.area r) ->
    exists z1v z2v self',
      calculate_z_values self reds browns = Ok ((z1v, z2v), self')
      /\ (0 < total_area reds ->
          forall i r, nth_error reds i = Some r ->
                      nth_error z1v i
                      = Some (inject_Z (Rect.area r)
                              / inject_Z (total_area reds))%Q)
      /\ (0 < total_area browns ->
          forall i r, nth_error browns i = Some r ->
                      nth_error z2v i
                      = Some (inject_Z (Rect.area r)
                              / inject_Z (total_area browns))%Q)
      /\ (0 < total_area reds -> List.length z1v = List.length reds)
      /\ (0 < total_area browns -> List.length z2v = List.length browns)
      /\ (forall z, In z z1v -> (0 <= z <= 1)%Q)
      /\ (forall z, In z z2v -> (0 <= z <= 1)%Q).
Proof.
  intros self reds browns Hr Hb. eexists. eexists. eexists.
  split; [apply calculate_z_values_fractions|].
  assert (Hnth : forall l, 0 < total_area l ->
            forall i r, nth_error l i = Some r ->
                        nth_error (fractions l) i
                        = Some (inject_Z (Rect.area r)
                                / inject_Z (total_area l))%Q).
  { intros l Hl i r Hi. unfold fractions.
    apply Z.ltb_lt in Hl. rewrite Hl, nth_error_map, Hi. reflexivity. }
  assert (Hlen : forall l, 0 < total_area l ->
            List.length (fractions l) = List.length l).
  { intros l Hl. unfold fractions.
    apply Z.ltb_lt in Hl. rewrite Hl. apply length_map. }
  split; [exact (Hnth reds)|]. split; [exact (Hnth browns)|].
  split; [exact (Hlen reds)|]. split; [exact (Hlen browns)|].
  split; apply fractions_bounds; assumption.
Qed.

Lemma z_values_are_fractions_witness :
  exists z1v z2v self',
    calculate_z_values (init false)
      [rect_info "red_" 0 0 0 1 2; rect_info "red_" 1 5 5 2 3]
      [rect_info "brown_" 0 0 0 4 4]
    = Ok ((z1v, z2v), self')
    /\ nth_error z1v 1 = Some (inject_Z 6 / inject_Z 8)%Q
    /\ List.length z2v = 1%nat.
Proof.
  destruct (z_values_are_fractions (init false)
              [rect_info "red_" 0 0 0 1 2; rect_info "red_" 1 5 5 2 3]
              [rect_info "brown_" 0 0 0 4 4])
    as (z1v & z2v & self' & Hrun & H1 & _ & _ & H2 & _).
  - intros r [<-|[<-|[]]]; discriminate.
  - intros r [<-|[]]; discriminate.
  - exists z1v, z2v, self'. split; [exact Hrun|]. split.
    + apply (H1 eq_refl 1%nat (rect_info "red_" 1 5 5 2 3)). reflexivity.
    + apply (H2 eq_refl).
Defined.

(** ** Further properties of the exclusion step *)

Lemma filter_idem {A : Type} (c : A -> bool) (l : list A) :
  filter c (filter c l) = filter c l.
Proof.
  induction l as [|a l IH]; simpl; [reflexivity|].
  destruct (c a) eqn:E; simpl; [rewrite E, IH|]; auto.
Qed.

Lemma filter_negb_nil {A : Type} (c : A -> bool) (l : list A) :
  filter c (filter (fun a => negb (c a)) l) = [].
Proof.
  induction l as [|a l IH]; simpl; [reflexivity|].
  destruct (c a) eqn:E; simpl; [|rewrite E]; auto.
Qed.

(** X5.  Excluding twice changes nothing: on the list it returned, with the
    same candidates, [exclude_cyan_only_red_rectangles] returns that list
    again and excludes no rectangle. *)
Theorem exclusion_idempotent :
  forall self reds browns cyans,
  exists filtered self1 self2,
    exclude_cyan_only_red_rectangles self reds browns cyans
    = Ok (filtered, self1)
    /\ exclude_cyan_only_red_rectangles self1 filtered browns cyans
       = Ok (filtered, self2)
    /\ excluded_red_rectangles (detection_results self2) = [].
Proof.
  intros self reds browns cyans. eexists. eexists. eexists.
  split; [apply exclude_run|].
  split.
  - rewrite exclude_run.
    rewrite (filter_idem (fun r => negb (cyan_only browns cyans r))).
    reflexivity.
  - cbn [set_excluded_red_rectangles detection_results
         excluded_red_rectangles].
    apply filter_negb_nil.
Qed.

Lemma kept_without_points browns reds :
  kept browns [] reds = reds /\ dropped browns [] reds = [].
Proof.
  unfold kept, dropped.
  assert (Hf : forall r, cyan_only browns [] r = false) by reflexivity.
  rewrite (filter_ext _ (fun _ => true))
    by (intro r; now rewrite Hf).
  rewrite (filter_ext (cyan_only browns []) (fun _ => false)) by exact Hf.
  rewrite !filter_const. split; reflexivity.
Qed.

(** X6.  Without candidate points nothing is excluded: the reference list
    is returned as it is, whatever the candidate rectangles are. *)
Theorem exclusion_needs_points :
  forall self reds browns,
  exists self',
    exclude_cyan_only_red_rectangles self reds browns [] = Ok (reds, self')
    /\ excluded_red_rectangles (detection_results self') = [].
Proof.
  intros self reds browns. eexists.
  rewrite exclude_run.
  destruct (kept_without_points browns reds) as [Hk Hd].
  unfold kept in Hk. unfold dropped in Hd. rewrite Hk, Hd.
  split; reflexivity.
Qed.

(** ** The composed pipeline, in general *)

Lemma process_images_run self reds browns cyans :
  process_images self reds browns cyans =
  Ok (scores_of reds browns cyans, self_after self reds browns cyans).
Proof.
  unfold process_images.
  rewrite exclude_run. cbn [bind].
  rewrite calculate_z_values_fractions. cbn [bind].
  rewrite calculate_first_layer_accuracy_run. cbn [bind].
  rewrite calculate_second_layer_accuracy_run. cbn [bind].
  unfold scores_of, self_after, kept, dropped, first_scores.
  cbn [filtered_reference z1 z2 first_layer_scores second_layer_score].
  reflexivity.
Qed.

(** X7.  [process_images] returns for every input: none of its divisions
    and none of its index accesses raises.  What it returns is what it
    leaves in [self.detection_results], with one exception: when no
    reference rectangle survives the exclusion, the returned second-layer
    score is 0 but the stored [second_layer_accuracy] keeps the value it
    had before the call.  The detected lists and [debug_mode] are left
    as they were. *)
Theorem process_images_stores_results :
  forall self reds browns cyans,
  exists scores self',
    process_images self reds browns cyans = Ok (scores, self')
    /\ interleaving (filtered_reference scores)
                    (excluded_red_rectangles (detection_results self')) reds
    /\ z1_values (detection_results self') = z1 scores
    /\ z2_values (detection_results self') = z2 scores
    /\ first_layer_accuracy (detection_results self')
       = first_layer_scores scores
    /\ (filtered_reference scores <> [] ->
        second_layer_accuracy (detection_results self')
        = second_layer_score scores)
    /\ (filtered_reference scores = [] ->
        second_layer_score scores = 0%Q
        /\ second_layer_accuracy (detection_results self')
           = second_layer_accuracy (detection_results self))
    /\ red_rectangles (detection_results self')
       = red_rectangles (detection_results self)
    /\ brown_rectangles (detection_results self')
       = brown_rectangles (detection_results self)
    /\ cyan_points (detection_results self')
       = cyan_points (detection_results self)
    /\ debug_mode self' = debug_mode self.
Proof.
  intros self reds browns cyans. eexists. eexists.
  split; [apply process_images_run|].
  unfold self_after. cbv zeta.
  cbn [scores_of filtered_reference z1 z2 first_layer_scores
       second_layer_score].
  split; [|destruct (kept browns cyans reds) as [|r0 F] eqn:E;
           repeat split; try reflexivity; congruence].
  pose proof (interleaving_filter (cyan_only browns cyans) reds) as Hi.
  fold (kept browns cyans reds) in Hi. fold (dropped browns cyans reds) in Hi.
  destruct (kept browns cyans reds); exact Hi.
Qed.

(** ** Further properties of the second layer *)

Lemma length_filter_pos {A : Type} (c : A -> bool) (l : list A) :
  0 < Z.of_nat (List.length (filter c l)) <-> exists a, In a l /\ c a = true.
Proof.
  split.
  - destruct (filter c l) as [|a l'] eqn:E; cbn [List.length]; [lia|].
    intros _. exists a. apply filter_In. rewrite E. now left.
  - intros [a Ha]. apply filter_In in Ha.
    destruct (filter c l); [contradiction|]. cbn [List.length]. lia.
Qed.

Lemma matches_pos browns r :
  0 < matches browns r <-> has_candidate_rect browns r.
Proof.
  unfold matches, has_candidate_rect. rewrite length_filter_pos.
  split; intros [b [Hb Hc]]; exists b; (split; [exact Hb|]).
  - now destruct (contains_dec r (Rect.center b)).
  - destruct (contains_dec r (Rect.center b)); [reflexivity|contradiction].
Qed.

Lemma targets_pos browns cyans r :
  0 < targets browns cyans r <->
  has_candidate_rect browns r \/ has_candidate_point cyans r.
Proof.
  rewrite <- matches_pos.
  assert (Hp : 0 < Z.of_nat
                     (List.length
                        (filter (fun p => if contains_dec r
                                               (Point.x p, Point.y p)
                                          then true else false) cyans))
               <-> has_candidate_point cyans r).
  { unfold has_candidate_point. rewrite length_filter_pos.
    split; intros [p [Hin Hc]]; exists p; (split; [exact Hin|]).
    - now destruct (contains_dec r (Point.x p, Point.y p)).
    - destruct (contains_dec r (Point.x p, Point.y p));
        [reflexivity|contradiction]. }
  rewrite <- Hp. unfold targets, matches. lia.
Qed.

Lemma ratio_pos browns cyans r :
  0 < matches browns r -> (0 < ratio browns cyans r)%Q.
Proof.
  intro Hm. unfold ratio.
  assert (Ht : 0 < targets browns cyans r) by (unfold targets; lia).
  apply Qlt_shift_div_l.
  - change 0%Q with (inject_Z 0). rewrite <- Zlt_Qlt. exact Ht.
  - rewrite Qmult_0_l. change 0%Q with (inject_Z 0).
    rewrite <- Zlt_Qlt. exact Hm.
Qed.

Lemma Qsum_pos (l : list Q) :
  l <> [] -> (forall q, In q l -> (0 < q)%Q) -> (0 < Qsum l)%Q.
Proof.
  induction l as [|q l IH]; intros Hne Hl; [congruence|].
  cbn [Qsum fold_right]. fold (Qsum l).
  pose proof (Hl q (or_introl eq_refl)) as Hq.
  destruct l as [|q' l'].
  - cbn [Qsum fold_right]. lra.
  - assert (0 < Qsum (q' :: l'))%Q
      by (apply IH; [discriminate | intros; apply Hl; now right]).
    lra.
Qed.

Lemma kept_rect_with_target browns cyans reds r :
  In r (kept browns cyans reds) -> 0 < targets browns cyans r ->
  0 < matches browns r.
Proof.
  intros Hk Ht. apply filter_In in Hk. destruct Hk as [_ Hk].
  apply negb_true_iff in Hk.
  apply matches_pos. apply targets_pos in Ht.
  destruct Ht as [Hr|Hp]; [exact Hr|].
  destruct (Z_lt_dec 0 (matches browns r)) as [Hm|Hm];
    [now apply matches_pos|].
  assert (cyan_only browns cyans r = true); [|congruence].
  apply cyan_only_spec. split; [exact Hp|].
  intro Hr. apply Hm, matches_pos, Hr.
Qed.

(** X8.  After the exclusion step every reference rectangle that is scored
    holds a candidate rectangle, so the second-layer score [process_images]
    returns is positive exactly when some surviving reference rectangle
    contains the center of a candidate rectangle, and 0 otherwise. *)
Theorem second_layer_positive_after_exclusion :
  forall self reds browns cyans,
  exists scores self',
    process_images self reds browns cyans = Ok (scores, self')
    /\ ((0 < second_layer_score scores)%Q <->
        exists r, In r (filtered_reference scores)
                  /\ has_candidate_rect browns r)
    /\ (~ (exists r, In r (filtered_reference scores)
                     /\ has_candidate_rect browns r) ->
        second_layer_score scores = 0%Q).
Proof.
  intros self reds browns cyans. eexists. eexists.
  split; [apply process_images_run|].
  cbn [scores_of filtered_reference second_layer_score].
  rewrite second_layer_value_spec.
  set (F := kept browns cyans reds).
  assert (Hscored : scored browns cyans F <> [] <->
                    exists r, In r F /\ has_candidate_rect browns r).
  { split.
    - destruct (scored browns cyans F) as [|r sc] eqn:E; [congruence|].
      intros _. assert (Hr : In r (scored browns cyans F))
        by (rewrite E; now left).
      unfold scored in Hr. apply filter_In in Hr. destruct Hr as [HF Ht].
      apply Z.ltb_lt in Ht. exists r. split; [exact HF|].
      apply matches_pos. exact (kept_rect_with_target _ _ _ _ HF Ht).
    - intros [r [HF Hr]] E.
      assert (Hin : In r (scored browns cyans F)).
      { unfold scored. apply filter_In. split; [exact HF|].
        apply Z.ltb_lt, targets_pos. now left. }
      rewrite E in Hin. contradiction. }
  split.
  - rewrite <- Hscored.
    destruct (scored browns cyans F) as [|r sc] eqn:E.
    + cbn [List.length Z.of_nat Z.ltb Z.compare]. split; [lra|congruence].
    + split; [discriminate|]. intros _.
      replace (0 <? Z.of_nat (List.length (r :: sc))) with true
        by (symmetry; apply Z.ltb_lt; cbn [List.length]; lia).
      apply Qlt_shift_div_l.
      * change 0%Q with (inject_Z 0). rewrite <- Zlt_Qlt.
        cbn [List.length]. lia.
      * rewrite Qmult_0_l, fold_Qplus, Qplus_0_l.
        apply Qsum_pos; [discriminate|].
        intros q Hq. apply in_map_iff in Hq. destruct Hq as [r' [<- Hr']].
        rewrite <- E in Hr'. unfold scored in Hr'.
        apply filter_In in Hr'. destruct Hr' as [HF Ht].
        apply Z.ltb_lt in Ht. apply ratio_pos.
        exact (kept_rect_with_target _ _ _ _ HF Ht).
  - intro Hnone.
    destruct (scored browns cyans F) as [|r sc] eqn:E; [reflexivity|].
    exfalso. apply Hnone, Hscored. discriminate.
Qed.

(** On the raw reference list the layer behaves differently: a rectangle
    that holds only a point is scored, with ratio 0. *)
Lemma second_layer_of_point_only_rectangle :
  exists score self',
    calculate_second_layer_accuracy (init false)
      [rect_info "red_" 0 0 0 100 100] [] [point_info 0 50 50 20%Q]
    = Ok (score, self')
    /\ (score == 0)%Q.
Proof.
  eexists. eexists. split; reflexivity.
Qed.

Lemma Qsum_ones (l : list Q) :
  (forall q, In q l -> (q == 1)%Q) ->
  (Qsum l == inject_Z (Z.of_nat (List.length l)))%Q.
Proof.
  induction l as [|q l IH]; intro H.
  - reflexivity.
  - cbn [Qsum fold_right]. fold (Qsum l).
    assert (Hq : (q == 1)%Q) by (apply H; now left).
    assert (Hl : (Qsum l == inject_Z (Z.of_nat (List.length l)))%Q)
      by (apply IH; intros; apply H; now right).
    replace (Z.of_nat (List.length (q :: l)))
      with (1 + Z.of_nat (List.length l)) by (cbn [List.length]; lia).
    rewrite inject_Z_plus, Hq, Hl. reflexivity.
Qed.

Lemma second_layer_value_without_points reds browns :
  ((exists r, In r reds /\ has_candidate_rect browns r) ->
   (second_layer_value reds browns [] == 1)%Q)
  /\ (~ (exists r, In r reds /\ has_candidate_rect browns r) ->
      second_layer_value reds browns [] = 0%Q).
Proof.
  rewrite second_layer_value_spec.
  assert (Ht : forall r, targets browns [] r = matches browns r)
    by (intro r; unfold targets; cbn [filter List.length]; lia).
  assert (Hin : forall r, In r (scored browns [] reds) <->
                          In r reds /\ has_candidate_rect browns r).
  { intro r. unfold scored.
    rewrite filter_In, Z.ltb_lt, Ht, matches_pos. reflexivity. }
  split.
  - intros [r Hr]. apply Hin in Hr.
    destruct (scored browns [] reds) as [|r0 sc] eqn:E; [contradiction|].
    assert (Hlen : 0 < Z.of_nat (List.length (r0 :: sc)))
      by (cbn [List.length]; lia).
    apply Z.ltb_lt in Hlen as Hb. rewrite Hb.
    rewrite fold_Qplus, Qplus_0_l, Qsum_ones.
    + rewrite length_map. apply Qmult_inv_r, inject_Z_nonzero. lia.
    + intros q Hq. apply in_map_iff in Hq. destruct Hq as [r' [<- Hr']].
      apply Hin in Hr'. destruct Hr' as [_ Hr'].
      apply matches_pos in Hr'. unfold ratio. rewrite Ht.
      apply Qmult_inv_r, inject_Z_nonzero. lia.
  - intro Hnone.
    destruct (scored browns [] reds) as [|r0 sc] eqn:E; [reflexivity|].
    exfalso. apply Hnone. exists r0. apply Hin. now left.
Qed.

(** X9.  Without candidate points the second layer only says whether a
    candidate rectangle was found at all: the score is 1 when some
    reference rectangle contains the center of a candidate rectangle, and 0
    otherwise. *)
Theorem second_layer_without_points :
  forall self reds browns,
  exists score self',
    calculate_second_layer_accuracy self reds browns [] = Ok (score, self')
    /\ ((exists r, In r reds /\ has_candidate_rect browns r) ->
        (score == 1)%Q)
    /\ (~ (exists r, In r reds /\ has_candidate_rect browns r) ->
        score = 0%Q).
Proof.
  intros self reds browns. eexists. eexists.
  split; [apply calculate_second_layer_accuracy_run|].
  apply second_layer_value_without_points.
Qed.






(** ** The detection loops *)

Lemma in_enumerate_from {A : Type} (l : list A) :
  forall k i a,
    In (i, a) (combine (seq k (List.length l)) l) <->
    (k <= i)%nat /\ nth_error l (i - k) = Some a.
Proof.
  induction l as [|b l IH]; intros k i a; cbn [List.length seq combine In].
  - split; [contradiction|]. intros [_ H]. now destruct (i - k)%nat.
  - rewrite IH. split.
    + intros [E|[Hle Hn]].
      * injection E as <- <-. rewrite Nat.sub_diag. split; [lia|reflexivity].
      * split; [lia|]. replace (i - k)%nat with (S (i - S k)) by lia.
        exact Hn.
    + intros [Hle Hn]. destruct (Nat.eq_dec k i) as [<-|Hne].
      * left. rewrite Nat.sub_diag in Hn. cbn in Hn. congruence.
      * right. split; [lia|].
        replace (i - k)%nat with (S (i - S k)) in Hn by lia. exact Hn.
Qed.

Lemma in_enumerate {A : Type} (l : list A) (i : nat) (a : A) :
  In (i, a) (enumerate l) <-> nth_error l i = Some a.
Proof.
  unfold enumerate. rewrite in_enumerate_from, Nat.sub_0_r.
  split; [tauto | split; [lia | assumption]].
Qed.

Lemma enumerate_indices {A : Type} (l : list A) :
  forall k, map fst (combine (seq k (List.length l)) l)
            = seq k (List.length l).
Proof.
  induction l as [|a l IH]; intro k; cbn [List.length seq combine map fst];
    [reflexivity|]. now rewrite IH.
Qed.

Lemma NoDup_map_fst_filter {A B : Type} (c : A * B -> bool)
      (l : list (A * B)) :
  NoDup (map fst l) -> NoDup (map fst (filter c l)).
Proof.
  induction l as [|p l IH]; cbn [map filter]; intro H; [constructor|].
  inversion H as [|? ? Hnotin Hrest]; subst.
  destruct (c p); [|now apply IH].
  cbn [map]. constructor; [|now apply IH].
  intro Hin. apply Hnotin. apply in_map_iff in Hin.
  destruct Hin as [q [Hq Hin]]. apply filter_In in Hin.
  apply in_map_iff. exists q. tauto.
Qed.

Lemma NoDup_map_injective {A B : Type} (f : A -> B) (l : list A) :
  (forall a b, f a = f b -> a = b) -> NoDup l -> NoDup (map f l).
Proof.
  intros Hf. induction 1 as [|a l Hnotin _ IH]; cbn [map]; constructor;
    [|exact IH].
  intro Hin. apply in_map_iff in Hin. destruct Hin as [b [E Hb]].
  apply Hf in E. subst. contradiction.
Qed.

Lemma append_injective (p s1 s2 : string) :
  (p ++ s1 = p ++ s2)%string -> s1 = s2.
Proof.
  induction p as [|c p IH]; cbn [String.append]; intro E; [exact E|].
  injection E as E. exact (IH E).
Qed.

Lemma to_uint_nonnil (n : nat) : Nat.to_uint n <> Decimal.Nil.
Proof.
  intro E. pose proof (Unsigned.of_to n) as H. rewrite E in H.
  cbn in H. subst n. discriminate E.
Qed.

Lemma index_string_injective (i j : nat) :
  NilZero.string_of_uint (Nat.to_uint i)
  = NilZero.string_of_uint (Nat.to_uint j) -> i = j.
Proof.
  intro E. apply Unsigned.to_uint_inj.
  pose proof (NilZero.usu _ (to_uint_nonnil i)) as Hi.
  pose proof (NilZero.usu _ (to_uint_nonnil j)) as Hj.
  rewrite E in Hi. congruence.
Qed.

Lemma rectangles_above_loop (prefix : string) (t : Z)
      (l : list (nat * (Z * Z * Z * Z))) :
  forall acc,
    fold_left
      (fun rectangles '(i, (x, y, w, h)) =>
         let area := w * h in
         if t <? area
         then rectangles ++ [rect_info prefix i x y w h]
         else rectangles)
      l acc
    = acc ++ map (fun '(i, (x, y, w, h)) => rect_info prefix i x y w h)
                 (filter (fun '(i, (x, y, w, h)) => t <? w * h) l).
Proof.
  induction l as [|[i [[[x y] w] h]] l IH]; intro acc;
    cbn [fold_left filter].
  - cbn [map]. now rewrite app_nil_r.
  - rewrite IH. cbv zeta. destruct (t <? w * h); [|reflexivity].
    cbn [map]. now rewrite <- app_assoc.
Qed.

Lemma rectangles_above_spec (prefix : string) (t : Z)
      (boxes : list (Z * Z * Z * Z)) :
  rectangles_above prefix t boxes
  = map (fun '(i, (x, y, w, h)) => rect_info prefix i x y w h)
        (filter (fun '(i, (x, y, w, h)) => t <? w * h) (enumerate boxes)).
Proof.
  unfold rectangles_above. now rewrite rectangles_above_loop.
Qed.

Lemma in_rectangles_above prefix t boxes r :
  In r (rectangles_above prefix t boxes) <->
  exists i x y w h,
    nth_error boxes i = Some (x, y, w, h)
    /\ t < w * h
    /\ r = rect_info prefix i x y w h.
Proof.
  rewrite rectangles_above_spec, in_map_iff. split.
  - intros [[i [[[x y] w] h]] [<- Hin]]. apply filter_In in Hin.
    destruct Hin as [Hin Ht]. apply in_enumerate in Hin.
    apply Z.ltb_lt in Ht. exists i, x, y, w, h. auto.
  - intros (i & x & y & w & h & Hn & Ht & ->).
    exists (i, (x, y, w, h)). split; [reflexivity|].
    apply filter_In. split; [now apply in_enumerate | now apply Z.ltb_lt].
Qed.

Lemma rectangles_above_ids prefix t boxes :
  NoDup (map Rect.id (rectangles_above prefix t boxes)).
Proof.
  rewrite rectangles_above_spec, map_map.
  rewrite (map_ext _ (fun p => (prefix
             ++ NilZero.string_of_uint (Nat.to_uint (fst p)))%string))
    by (intros [i [[[x y] w] h]]; reflexivity).
  rewrite <- (map_map fst
                (fun i => (prefix
                           ++ NilZero.string_of_uint (Nat.to_uint i))%string)).
  apply NoDup_map_injective.
  - intros i j E. apply index_string_injective.
    exact (append_injective _ _ _ E).
  - apply NoDup_map_fst_filter. unfold enumerate.
    rewrite enumerate_indices. apply seq_NoDup.
Qed.

(** X11.  [detect_red_rectangles] keeps exactly the bounding boxes whose
    area [w * h] exceeds 500, in contour order: each returned rectangle
    comes from such a box and carries its index in the identifier, and each
    such box gives a rectangle.  The identifiers are pairwise distinct, the
    stored area is width times height, and the rectangles are appended to
    those already stored in [self.detection_results]. *)
Theorem detect_red_rectangles_keeps_large_boxes :
  forall self boxes,
  exists reds self',
    detect_red_rectangles self boxes = Ok (reds, self')
    /\ (forall r, In r reds <->
                  exists i x y w h,
                    nth_error boxes i = Some (x, y, w, h)
                    /\ 500 < w * h
                    /\ r = rect_info "red_" i x y w h)
    /\ (forall r, In r reds ->
                  Rect.area r = Rect.width r * Rect.height r
                  /\ 500 < Rect.area r)
    /\ NoDup (map Rect.id reds)
    /\ (List.length reds <= List.length boxes)%nat
    /\ red_rectangles (detection_results self')
       = red_rectangles (detection_results self) ++ reds.
Proof.
  intros self boxes. eexists. eexists.
  split; [reflexivity|].
  split; [intro r; apply in_rectangles_above|].
  split.
  { intros r Hr. apply in_rectangles_above in Hr.
    destruct Hr as (i & x & y & w & h & _ & Ht & ->).
    cbn [rect_info Rect.area Rect.width Rect.height]. auto. }
  split; [apply rectangles_above_ids|].
  split; [|reflexivity].
  rewrite rectangles_above_spec, length_map.
  eapply Nat.le_trans; [apply filter_length_le|].
  unfold enumerate. rewrite length_combine, length_seq. lia.
Qed.

Lemma rect_info_contains_center prefix i x y w h :
  0 <= x -> 0 <= y -> 0 <= w -> 0 <= h ->
  contains (rect_info prefix i x y w h)
           (Rect.center (rect_info prefix i x y w h)).
Proof.
  intros Hx Hy Hw Hh. unfold contains, rect_info.
  cbn [fst snd Rect.x Rect.y Rect.width Rect.height Rect.center].
  rewrite !int_half by assumption.
  assert (0 <= w / 2 <= w)
    by (split; [apply Z.div_pos | apply Z.div_le_upper_bound]; lia).
  assert (0 <= h / 2 <= h)
    by (split; [apply Z.div_pos | apply Z.div_le_upper_bound]; lia).
  lia.
Qed.

Lemma rectangles_above_contain_centers prefix t boxes :
  (forall box, In box boxes -> box_in_image box) ->
  forall r, In r (rectangles_above prefix t boxes) ->
            contains r (Rect.center r).
Proof.
  intros Hboxes r Hr. apply in_rectangles_above in Hr.
  destruct Hr as (i & x & y & w & h & Hn & _ & ->).
  apply nth_error_In in Hn. apply Hboxes in Hn.
  destruct Hn as (Hx & Hy & Hw & Hh).
  now apply rect_info_contains_center.
Qed.

Lemma cyan_step_eq (acc : list Point.t) (ic : nat * Contour) :
  cyan_step acc ic
  = Ok (if cyan_kept ic then acc ++ [cyan_point_of ic] else acc).
Proof.
  destruct ic as [i M]. unfold cyan_step, cyan_kept, cyan_point_of.
  cbn [fst snd].
  destruct (Qeq_bool (m00 M) 0) eqn:E; cbn [negb andb]; [reflexivity|].
  apply Qeq_bool_neq in E. rewrite !truediv_ok by exact E. cbn [bind].
  destruct (Py.Qltb 10 (contourArea M)); reflexivity.
Qed.

Lemma cyan_loop (contours : list Contour) :
  Py.for_each cyan_step (enumerate contours) [] = Ok (cyan_points_of contours).
Proof.
  unfold cyan_points_of.
  rewrite (for_each_append cyan_step cyan_kept cyan_point_of);
    [reflexivity|].
  intros acc ic _. apply cyan_step_eq.
Qed.

Lemma detect_brown_and_cyan_run self boxes contours :
  detect_brown_rectangles_and_cyan_points self boxes contours
  = Ok ((rectangles_above "brown_" 300 boxes, cyan_points_of contours),
        extend_brown_and_cyan self (rectangles_above "brown_" 300 boxes)
                              (cyan_points_of contours)).
Proof.
  unfold detect_brown_rectangles_and_cyan_points.
  rewrite cyan_loop. reflexivity.
Qed.

Lemma in_cyan_points_of contours p :
  In p (cyan_points_of contours) <->
  exists i M,
    nth_error contours i = Some M
    /\ ~ (m00 M == 0)%Q
    /\ (10 < contourArea M)%Q
    /\ p = point_info i (Py.int (m10 M / m00 M)%Q)
                         (Py.int (m01 M / m00 M)%Q) (contourArea M).
Proof.
  unfold cyan_points_of. rewrite in_map_iff. split.
  - intros [[i M] [<- Hin]]. apply filter_In in Hin.
    destruct Hin as [Hin Hk]. apply in_enumerate in Hin.
    unfold cyan_kept in Hk. cbn [snd] in Hk.
    apply andb_true_iff in Hk. destruct Hk as [Hm Ha].
    apply negb_true_iff, Qeq_bool_neq in Hm. apply Qltb_lt in Ha.
    exists i, M. auto.
  - intros (i & M & Hn & Hm & Ha & ->). exists (i, M).
    split; [reflexivity|]. apply filter_In.
    split; [now apply in_enumerate|].
    unfold cyan_kept. cbn [snd]. apply andb_true_iff. split.
    + apply negb_true_iff. destruct (Qeq_bool (m00 M) 0) eqn:E;
        [|reflexivity]. apply Qeq_bool_iff in E. contradiction.
    + now apply Qltb_lt.
Qed.

(** X12.  [detect_brown_rectangles_and_cyan_points] always returns: a
    contour whose moment [m00] is zero is skipped, so the centroid division
    never raises.  It keeps exactly the bounding boxes of area above 300 and
    exactly the contours with non-zero [m00] and contour area above 10,
    placing each point at the truncated centroid
    [(int(m10/m00), int(m01/m00))]; both lists are appended to those
    already stored. *)
Theorem detect_brown_and_cyan_keeps :
  forall self boxes contours,
  exists browns cyans self',
    detect_brown_rectangles_and_cyan_points self boxes contours
    = Ok ((browns, cyans), self')
    /\ (forall r, In r browns <->
                  exists i x y w h,
                    nth_error boxes i = Some (x, y, w, h)
                    /\ 300 < w * h
                    /\ r = rect_info "brown_" i x y w h)
    /\ (forall p, In p cyans <->
                  exists i M,
                    nth_error contours i = Some M
                    /\ ~ (m00 M == 0)%Q
                    /\ (10 < contourArea M)%Q
                    /\ p = point_info i (Py.int (m10 M / m00 M)%Q)
                                         (Py.int (m01 M / m00 M)%Q)
                                         (contourArea M))
    /\ brown_rectangles (detection_results self')
       = brown_rectangles (detection_results self) ++ browns
    /\ cyan_points (detection_results self')
       = cyan_points (detection_results self) ++ cyans.
Proof.
  intros self boxes contours. eexists. eexists. eexists.
  split; [apply detect_brown_and_cyan_run|].
  split; [intro r; apply in_rectangles_above|].
  split; [intro p; apply in_cyan_points_of|].
  split; reflexivity.
Qed.

(** X13.  When the bounding boxes have non-negative coordinates and
    extents, every rectangle either detection method returns contains its
    own stored center. *)
Theorem detected_rectangles_contain_their_centers :
  forall self red_boxes brown_boxes contours,
    (forall box, In box red_boxes -> box_in_image box) ->
    (forall box, In box brown_boxes -> box_in_image box) ->
    exists reds browns cyans self1 self2,
      detect_red_rectangles self red_boxes = Ok (reds, self1)
      /\ detect_brown_rectangles_and_cyan_points self1 brown_boxes contours
         = Ok ((browns, cyans), self2)
      /\ (forall r, In r reds ->
                    _is_inside_rectangle (Rect.center r) r = true)
      /\ (forall r, In r browns ->
                    _is_inside_rectangle (Rect.center r) r = true).
Proof.
  intros self red_boxes brown_boxes contours Hr Hb.
  eexists. eexists. eexists. eexists. eexists.
  split; [reflexivity|].
  split; [apply detect_brown_and_cyan_run|].
  split; intros r Hin; apply _is_inside_rectangle_contains.
  - exact (rectangles_above_contain_centers _ _ _ Hr r Hin).
  - exact (rectangles_above_contain_centers _ _ _ Hb r Hin).
Qed.

Lemma detected_rectangles_contain_their_centers_witness :
  exists reds browns cyans self1 self2,
    detect_red_rectangles (init false) [(0, 0, 30, 30); (5, 5, 3, 3)]
    = Ok (reds, self1)
    /\ detect_brown_rectangles_and_cyan_points self1 [(2, 2, 25, 21)] []
       = Ok ((browns, cyans), self2)
    /\ (forall r, In r reds ->
                  _is_inside_rectangle (Rect.center r) r = true)
    /\ (forall r, In r browns ->
                  _is_inside_rectangle (Rect.center r) r = true).
Proof.
  apply detected_rectangles_contain_their_centers.
  - intros box [<-|[<-|[]]]; cbn; lia.
  - intros box [<-|[]]; cbn; lia.
Defined.

(** ** From contours to scores *)

Lemma process_contours_run self red_boxes brown_boxes contours now :
  process_contours self red_boxes brown_boxes contours now =
  Ok ((scores_of (rectangles_above "red_" 500 red_boxes)
                 (rectangles_above "brown_" 300 brown_boxes)
                 (cyan_points_of contours),
       generate_matching_statistics
         (self_after
            (extend_brown_and_cyan
               (extend_red_rectangles self
                  (rectangles_above "red_" 500 red_boxes))
               (rectangles_above "brown_" 300 brown_boxes)
               (cyan_points_of contours))
            (rectangles_above "red_" 500 red_boxes)
            (rectangles_above "brown_" 300 brown_boxes)
            (cyan_points_of contours))
         (kept (rectangles_above "brown_" 300 brown_boxes)
               (cyan_points_of contours)
               (rectangles_above "red_" 500 red_boxes))
         (rectangles_above "brown_" 300 brown_boxes)
         (cyan_points_of contours) now),
      self_after
        (extend_brown_and_cyan
           (extend_red_rectangles self
              (rectangles_above "red_" 500 red_boxes))
           (rectangles_above "brown_" 300 brown_boxes)
           (cyan_points_of contours))
        (rectangles_above "red_" 500 red_boxes)
        (rectangles_above "brown_" 300 brown_boxes)
        (cyan_points_of contours)).
Proof.
  unfold process_contours, detect_red_rectangles. cbn [bind].
  rewrite detect_brown_and_cyan_run. cbn [bind].
  rewrite process_images_run. cbn [bind]. reflexivity.
Qed.

Lemma areas_above prefix t boxes r :
  In r (rectangles_above prefix t boxes) -> t < Rect.area r.
Proof.
  intro Hr. apply in_rectangles_above in Hr.
  destruct Hr as (i & x & y & w & h & _ & Ht & ->). exact Ht.
Qed.

Lemma total_area_pos (l : list Rect.t) :
  l <> [] -> (forall r, In r l -> 0 < Rect.area r) -> 0 < total_area l.
Proof.
  destruct l as [|r l]; intros Hne H; [congruence|].
  cbn [total_area fold_right]. fold (total_area l).
  pose proof (H r (or_introl eq_refl)).
  pose proof (total_area_nonneg l
                (fun r' Hr' => Z.lt_le_incl _ _ (H r' (or_intror Hr')))).
  lia.
Qed.

Lemma fractions_of_positive_areas (l : list Rect.t) :
  (forall r, In r l -> 0 < Rect.area r) ->
  List.length (fractions l) = List.length l
  /\ (forall z, In z (fractions l) -> (0 < z <= 1)%Q)
  /\ (l <> [] -> (Qsum (fractions l) == 1)%Q).
Proof.
  intro H.
  assert (Hnn : forall r, In r l -> 0 <= Rect.area r)
    by (intros r Hr; apply Z.lt_le_incl, H, Hr).
  split; [|split].
  - destruct l as [|r l]; [reflexivity|].
    unfold fractions.
    replace (0 <? total_area (r :: l)) with true
      by (symmetry; apply Z.ltb_lt, total_area_pos; [discriminate|exact H]).
    apply length_map.
  - intros z Hz. split; [|exact (proj2 (fractions_bounds l Hnn z Hz))].
    unfold fractions in Hz.
    destruct (0 <? total_area l) eqn:E; [|contradiction].
    apply Z.ltb_lt in E. apply in_map_iff in Hz. destruct Hz as [r [<- Hr]].
    apply Qlt_shift_div_l.
    + change 0%Q with (inject_Z 0). rewrite <- Zlt_Qlt. exact E.
    + rewrite Qmult_0_l. change 0%Q with (inject_Z 0).
      rewrite <- Zlt_Qlt. apply H, Hr.
  - intro Hne. pose proof (total_area_pos l Hne H) as Hpos.
    unfold fractions. apply Z.ltb_lt in Hpos as Hb. rewrite Hb.
    rewrite Qsum_fractions. apply Qmult_inv_r, inject_Z_nonzero. lia.
Qed.




Lemma filter_all {A : Type} (c : A -> bool) (l : list A) :
  (forall a, In a l -> c a = true) -> filter c l = l.
Proof.
  induction l as [|a l IH]; intro H; cbn [filter]; [reflexivity|].
  rewrite (H a (or_introl eq_refl)), IH; [reflexivity|].
  intros b Hb. apply H. now right.
Qed.

Lemma rectangles_above_all prefix t boxes :
  (forall x y w h, In (x, y, w, h) boxes -> t < w * h) ->
  rectangles_above prefix t boxes
  = map (fun '(i, (x, y, w, h)) => rect_info prefix i x y w h)
        (enumerate boxes).
Proof.
  intro H. rewrite rectangles_above_spec, filter_all; [reflexivity|].
  intros [i [[[x y] w] h]] Hin. apply Z.ltb_lt, (H x y w h).
  unfold enumerate in Hin. exact (in_combine_r _ _ _ _ Hin).
Qed.

Lemma total_area_of_areas (l : list Rect.t) :
  total_area l = fold_right Z.add 0 (map Rect.area l).
Proof.
  induction l as [|r l IH]; cbn [total_area fold_right map];
    [reflexivity|]. fold (total_area l). now rewrite IH.
Qed.

Lemma fractions_of_areas (l l' : list Rect.t) :
  map Rect.area l = map Rect.area l' -> fractions l = fractions l'.
Proof.
  intro E. unfold fractions. rewrite !total_area_of_areas, <- E.
  set (T := fold_right Z.add 0 (map Rect.area l)).
  destruct (0 <? T); [|reflexivity].
  rewrite <- (map_map Rect.area (fun a => (inject_Z a / inject_Z T)%Q) l).
  rewrite <- (map_map Rect.area (fun a => (inject_Z a / inject_Z T)%Q) l').
  now rewrite E.
Qed.

Lemma in_combine_same {A : Type} (l : list A) (a b : A) :
  In (a, b) (combine l l) -> a = b.
Proof.
  induction l as [|c l IH]; cbn [combine In]; [contradiction|].
  intros [E|H]; [congruence | exact (IH H)].
Qed.

Lemma pair_accuracy_same (a : Q) : (0 < a)%Q -> (pair_accuracy a a == 1)%Q.
Proof.
  intro Ha.
  assert (Hmax : (Qmax a a == a)%Q) by (apply Q.max_l, Qle_refl).
  rewrite (proj1 (pair_accuracy_formula a a)) by (rewrite Hmax; exact Ha).
  rewrite Hmax. setoid_replace (a - a)%Q with 0%Q by ring.
  cbn [Qabs Qnum Z.abs]. unfold Qdiv. ring.
Qed.

(** X15.  Comparing a layout with itself gives perfect scores: when the
    two images yield the same bounding boxes, all inside the image and of
    area above 500, and the compared image holds no cyan contour, no
    reference rectangle is excluded, every first-layer score is 1, one per
    box, and the second-layer score is 1. *)
Theorem identical_layouts_score_one :
  forall self boxes now,
    boxes <> [] ->
    (forall x y w h,
        In (x, y, w, h) boxes ->
        0 <= x /\ 0 <= y /\ 0 <= w /\ 0 <= h /\ 500 < w * h) ->
    exists scores statistics self',
      process_contours self boxes boxes [] now
      = Ok ((scores, statistics), self')
      /\ List.length (filtered_reference scores) = List.length boxes
      /\ excluded_red_rectangles (detection_results self') = []
      /\ List.length (first_layer_scores scores) = List.length boxes
      /\ (forall p, In p (first_layer_scores scores) -> (p == 1)%Q)
      /\ (second_layer_score scores == 1)%Q.
Proof.
  intros self boxes now Hne Hboxes.
  eexists. eexists. eexists.
  split; [apply process_contours_run|].
  change (cyan_points_of []) with (@nil Point.t).
  set (R := rectangles_above "red_" 500 boxes).
  set (B := rectangles_above "brown_" 300 boxes).
  destruct (kept_without_points B R) as [Hk Hd].
  assert (HR : R = map (fun '(i, (x, y, w, h)) => rect_info "red_" i x y w h)
                       (enumerate boxes)).
  { apply rectangles_above_all. intros x y w h Hin.
    apply (Hboxes x y w h Hin). }
  assert (HB : B = map (fun '(i, (x, y, w, h)) =>
                          rect_info "brown_" i x y w h)
                       (enumerate boxes)).
  { apply rectangles_above_all. intros x y w h Hin.
    pose proof (Hboxes x y w h Hin). lia. }
  assert (HlenR : List.length R = List.length boxes).
  { rewrite HR, length_map. unfold enumerate.
    rewrite length_combine, length_seq. lia. }
  assert (Hareas : map Rect.area R = map Rect.area B).
  { rewrite HR, HB, !map_map. apply map_ext.
    intros [i [[[x y] w] h]]. reflexivity. }
  assert (Hfr : fractions B = fractions R)
    by (symmetry; apply fractions_of_areas, Hareas).
  assert (Hpos : forall r, In r R -> 0 < Rect.area r).
  { intros r Hr. apply areas_above in Hr. lia. }
  destruct (fractions_of_positive_areas R Hpos) as (HlenF & HinF & _).
  unfold self_after. cbv zeta.
  cbn [scores_of filtered_reference z1 z2 first_layer_scores
       second_layer_score].
  rewrite Hk, Hd, Hfr.
  split; [exact HlenR|].
  split; [destruct R; reflexivity|].
  split.
  { unfold first_scores.
    rewrite length_map, length_combine, Nat.min_id, HlenF. exact HlenR. }
  split.
  { intros p Hp. unfold first_scores in Hp. apply in_map_iff in Hp.
    destruct Hp as [[a b] [<- Hab]]. cbn [fst snd].
    pose proof (in_combine_same _ _ _ Hab) as <-.
    apply pair_accuracy_same.
    exact (proj1 (HinF a (in_combine_l _ _ _ _ Hab))). }
  apply second_layer_value_without_points.
  destruct boxes as [|[[[x y] w] h] rest]; [congruence|].
  destruct (Hboxes x y w h (or_introl eq_refl)) as (Hx & Hy & Hw & Hh & Ha).
  exists (rect_info "red_" 0 x y w h). split.
  - apply in_rectangles_above. exists 0%nat, x, y, w, h. auto.
  - exists (rect_info "brown_" 0 x y w h). split.
    + apply in_rectangles_above. exists 0%nat, x, y, w, h.
      split; [reflexivity | split; [lia | reflexivity]].
    + exact (rect_info_contains_center "red_" 0 x y w h Hx Hy Hw Hh).
Qed.

Lemma identical_layouts_score_one_witness :
  exists scores statistics self',
    process_contours (init false)
      [(50, 50, 150, 100); (300, 200, 150, 100)]
      [(50, 50, 150, 100); (300, 200, 150, 100)] [] "2026-01-01T00:00:00"
    = Ok ((scores, statistics), self')
    /\ List.length (first_layer_scores scores) = 2%nat
    /\ (second_layer_score scores == 1)%Q.
Proof.
  destruct (identical_layouts_score_one (init false)
              [(50, 50, 150, 100); (300, 200, 150, 100)]
              "2026-01-01T00:00:00")
    as (scores & statistics & self' & Hrun & _ & _ & Hlen & _ & Hs).
  - discriminate.
  - intros x y w h [E|[E|[]]]; injection E as <- <- <- <-; lia.
  - exists scores, statistics, self'. auto.
Defined.

(** ** Matching statistics *)






(** ** When the exclusion grows and when the second layer is perfect *)

Lemma has_candidate_rect_app browns extra r :
  has_candidate_rect browns r -> has_candidate_rect (browns ++ extra) r.
Proof.
  intros [b [Hb Hc]]. exists b. split; [|exact Hc].
  apply in_or_app. now left.
Qed.

Lemma has_candidate_point_app cyans extra r :
  has_candidate_point cyans r -> has_candidate_point (cyans ++ extra) r.
Proof.
  intros [p [Hp Hc]]. exists p. split; [|exact Hc].
  apply in_or_app. now left.
Qed.

(** X17.  More candidate rectangles never exclude more, and more candidate
    points never exclude less: a reference rectangle excluded with extra
    candidate rectangles is excluded without them, and one excluded with
    the given points stays excluded when points are added. *)
Theorem exclusion_monotone :
  forall self reds browns cyans more_browns more_cyans,
  exists f0 self0 f1 self1 f2 self2,
    exclude_cyan_only_red_rectangles self reds browns cyans = Ok (f0, self0)
    /\ exclude_cyan_only_red_rectangles self reds (browns ++ more_browns)
                                        cyans
       = Ok (f1, self1)
    /\ exclude_cyan_only_red_rectangles self reds browns
                                        (cyans ++ more_cyans)
       = Ok (f2, self2)
    /\ (forall r, In r (excluded_red_rectangles (detection_results self1)) ->
                  In r (excluded_red_rectangles (detection_results self0)))
    /\ (forall r, In r f0 -> In r f1)
    /\ (forall r, In r (excluded_red_rectangles (detection_results self0)) ->
                  In r (excluded_red_rectangles (detection_results self2)))
    /\ (forall r, In r f2 -> In r f0).
Proof.
  intros self reds browns cyans more_browns more_cyans.
  eexists. eexists. eexists. eexists. eexists. eexists.
  split; [apply exclude_run|]. split; [apply exclude_run|].
  split; [apply exclude_run|].
  cbn [set_excluded_red_rectangles detection_results
       excluded_red_rectangles].
  assert (Hb : forall r, cyan_only (browns ++ more_browns) cyans r = true ->
                         cyan_only browns cyans r = true).
  { intros r H. apply cyan_only_spec in H. apply cyan_only_spec.
    destruct H as [Hp Hn]. split; [exact Hp|].
    intro Hr. apply Hn, has_candidate_rect_app, Hr. }
  assert (Hc : forall r, cyan_only browns cyans r = true ->
                         cyan_only browns (cyans ++ more_cyans) r = true).
  { intros r H. apply cyan_only_spec in H. apply cyan_only_spec.
    destruct H as [Hp Hn]. split; [|exact Hn].
    apply has_candidate_point_app, Hp. }
  repeat split; intros r Hr; apply filter_In in Hr; apply filter_In;
    destruct Hr as [Hin Hr]; (split; [exact Hin|]).
  - now apply Hb.
  - apply negb_true_iff in Hr. apply negb_true_iff.
    destruct (cyan_only (browns ++ more_browns) cyans r) eqn:E;
      [|reflexivity]. apply Hb in E. congruence.
  - now apply Hc.
  - apply negb_true_iff in Hr. apply negb_true_iff.
    destruct (cyan_only browns cyans r) eqn:E; [|reflexivity].
    apply Hc in E. congruence.
Qed.

Lemma Qsum_le_length (l : list Q) :
  (forall q, In q l -> (q <= 1)%Q) ->
  (Qsum l <= inject_Z (Z.of_nat (List.length l)))%Q.
Proof.
  induction l as [|q l IH]; intro H.
  - apply Qle_refl.
  - cbn [Qsum fold_right]. fold (Qsum l).
    replace (Z.of_nat (List.length (q :: l)))
      with (1 + Z.of_nat (List.length l)) by (cbn [List.length]; lia).
    rewrite inject_Z_plus. change (inject_Z 1) with 1%Q.
    pose proof (H q (or_introl eq_refl)).
    pose proof (IH (fun q' Hq' => H q' (or_intror Hq'))). lra.
Qed.

Lemma Qsum_full (l : list Q) :
  (forall q, In q l -> (q <= 1)%Q) ->
  (Qsum l == inject_Z (Z.of_nat (List.length l)))%Q ->
  forall q, In q l -> (q == 1)%Q.
Proof.
  induction l as [|q0 l IH]; intros H Hsum q Hq; [contradiction|].
  cbn [Qsum fold_right] in Hsum. fold (Qsum l) in Hsum.
  replace (Z.of_nat (List.length (q0 :: l)))
    with (1 + Z.of_nat (List.length l)) in Hsum
    by (cbn [List.length]; lia).
  rewrite inject_Z_plus in Hsum. change (inject_Z 1) with 1%Q in Hsum.
  pose proof (H q0 (or_introl eq_refl)) as H0.
  pose proof (Qsum_le_length l (fun q' Hq' => H q' (or_intror Hq'))) as Hl.
  destruct Hq as [<-|Hq].
  - lra.
  - apply IH; [intros; apply H; now right | lra | exact Hq].
Qed.

Lemma points_pos browns cyans r :
  matches browns r < targets browns cyans r <-> has_candidate_point cyans r.
Proof.
  unfold has_candidate_point, targets.
  rewrite <- (Z.add_0_r (matches browns r)) at 1.
  rewrite <- Z.add_lt_mono_l, length_filter_pos.
  split; intros [p [Hin Hc]]; exists p; (split; [exact Hin|]).
  - now destruct (contains_dec r (Point.x p, Point.y p)).
  - destruct (contains_dec r (Point.x p, Point.y p));
      [reflexivity|contradiction].
Qed.

Lemma ratio_one browns cyans r :
  0 < targets browns cyans r ->
  ((ratio browns cyans r == 1)%Q <->
   matches browns r = targets browns cyans r).
Proof.
  intro Ht. unfold ratio.
  assert (Hnz : ~ (inject_Z (targets browns cyans r) == 0)%Q)
    by (apply inject_Z_nonzero; lia).
  split; intro H.
  - apply inject_Z_injective.
    setoid_replace (inject_Z (matches browns r))
      with (inject_Z (matches browns r) / inject_Z (targets browns cyans r)
            * inject_Z (targets browns cyans r))%Q
      by (field; exact Hnz).
    rewrite H. ring.
  - rewrite H. apply Qmult_inv_r, Hnz.
Qed.

(** X18.  The second-layer score is 1 exactly when no reference rectangle
    contains a candidate point and at least one contains the center of a
    candidate rectangle. *)
Theorem second_layer_perfect :
  forall self reds browns cyans,
  exists score self',
    calculate_second_layer_accuracy self reds browns cyans
    = Ok (score, self')
    /\ ((score == 1)%Q <->
        (exists r, In r reds /\ has_candidate_rect browns r)
        /\ (forall r, In r reds -> ~ has_candidate_point cyans r)).
Proof.
  intros self reds browns cyans. eexists. eexists.
  split; [apply calculate_second_layer_accuracy_run|].
  rewrite second_layer_value_spec.
  assert (Hin : forall r, In r (scored browns cyans reds) <->
                          In r reds /\ 0 < targets browns cyans r).
  { intro r. unfold scored. now rewrite filter_In, Z.ltb_lt. }
  assert (Hle : forall q,
             In q (map (ratio browns cyans) (scored browns cyans reds)) ->
             (q <= 1)%Q).
  { intros q Hq. apply in_map_iff in Hq. destruct Hq as [r [<- Hr]].
    rewrite <- ratio_of_spec. apply ratio_of_bounds.
    rewrite has_targets_spec. apply Z.ltb_lt, Hin, Hr. }
  destruct (0 <? Z.of_nat (List.length (scored browns cyans reds))) eqn:En.
  - apply Z.ltb_lt in En.
    assert (Hnz : ~ (inject_Z (Z.of_nat
                                 (List.length (scored browns cyans reds)))
                     == 0)%Q) by (apply inject_Z_nonzero; lia).
    rewrite fold_Qplus, Qplus_0_l. split.
    + intro Hone.
      assert (Hsum : (Qsum (map (ratio browns cyans)
                                (scored browns cyans reds))
                      == inject_Z (Z.of_nat
                                     (List.length
                                        (map (ratio browns cyans)
                                             (scored browns cyans reds)))))%Q).
      { rewrite length_map.
        setoid_replace
          (Qsum (map (ratio browns cyans) (scored browns cyans reds)))
          with (Qsum (map (ratio browns cyans) (scored browns cyans reds))
                / inject_Z (Z.of_nat
                              (List.length (scored browns cyans reds)))
                * inject_Z (Z.of_nat
                              (List.length (scored browns cyans reds))))%Q
          by (field; exact Hnz).
        rewrite Hone. ring. }
      pose proof (Qsum_full _ Hle Hsum) as Hall.
      assert (Heq : forall r, In r (scored browns cyans reds) ->
                              matches browns r = targets browns cyans r).
      { intros r Hr. apply ratio_one; [apply Hin, Hr|].
        apply Hall, in_map, Hr. }
      split.
      * destruct (scored browns cyans reds) as [|r0 sc] eqn:E;
          [cbn in En; lia|].
        assert (Hr0 : In r0 (r0 :: sc)) by now left.
        exists r0. split; [apply Hin, Hr0|].
        apply matches_pos. rewrite (Heq r0 Hr0). apply Hin, Hr0.
      * intros r Hr Hp.
        assert (Hs : In r (scored browns cyans reds)).
        { apply Hin. split; [exact Hr|]. apply targets_pos. now right. }
        apply (proj2 (points_pos browns cyans r)) in Hp.
        rewrite (Heq r Hs) in Hp. lia.
    + intros [_ Hnone].
      rewrite Qsum_ones.
      * rewrite length_map. apply Qmult_inv_r, Hnz.
      * intros q Hq. apply in_map_iff in Hq. destruct Hq as [r [<- Hr]].
        apply Hin in Hr. destruct Hr as [Hr Ht].
        apply ratio_one; [exact Ht|].
        destruct (Z_lt_dec (matches browns r) (targets browns cyans r))
          as [Hlt|Hge].
        -- apply points_pos in Hlt. exfalso. exact (Hnone r Hr Hlt).
        -- unfold targets in *. lia.
  - split; [intro H; discriminate H|].
    intros [[r [Hr Hc]] _]. exfalso.
    assert (Hs : In r (scored browns cyans reds)).
    { apply Hin. split; [exact Hr|]. apply targets_pos. now left. }
    destruct (scored browns cyans reds); [contradiction|].
    cbn in En. discriminate En.
Qed.
